(** * VertexBuffer.cpp: streaming and static vertex buffer interfaces

    A shallow embedding of [src/libANGLE/renderer/d3d/VertexBuffer.cpp]:
    the serial counter of [VertexBuffer], the space computation of
    [VertexBufferInterface], the bump allocation of
    [StreamingVertexBufferInterface] and the attribute signature of
    [StaticVertexBufferInterface].

    Machine integers are [Z] with the wrap-around of the C++ type written
    out.  A method that mutates its object is a function from the object's
    state to a result and the state it leaves behind: an [ANGLE_TRY] that
    returns early keeps whatever was mutated before it. *)

From Stdlib Require Import ZArith List Bool String DecimalString Lia.
Import ListNotations.
Local Open Scope Z_scope.

(** ** Machine integers *)

Definition UINT_MAX : Z := 4294967295.

(** Conversion to [unsigned int] / [GLuint]. *)
Definition to_uint (z : Z) : Z := z mod 4294967296.

(** Conversion to [size_t] (64 bits). *)
Definition to_size_t (z : Z) : Z := z mod 18446744073709551616.

Definition is_uint (z : Z) : Prop := 0 <= z <= UINT_MAX.

(** [angle::CheckedNumeric<unsigned int>]: [None] once an operation has left
    the range of the type ([IsValid()] is false). *)
Definition CheckedNumeric : Type := option Z.

Definition checked (z : Z) : CheckedNumeric :=
  if (0 <=? z) && (z <=? UINT_MAX) then Some z else None.

Definition checked_add (a : CheckedNumeric) (b : Z) : CheckedNumeric :=
  match a with
  | Some x => checked (x + b)
  | None => None
  end.

Definition IsValid (c : CheckedNumeric) : bool :=
  match c with Some _ => true | None => false end.

(** ** gl::Error *)

Definition GL_NONE : Z := 0.
Definition GL_OUT_OF_MEMORY : Z := 1285.

Record Error : Type := mkError { errorCode : Z; errorMessage : string }.

(** [gl::OutOfMemory() << msg] *)
Definition OutOfMemory (msg : string) : Error := mkError GL_OUT_OF_MEMORY msg.

Inductive Result (A : Type) : Type :=
| Ok (a : A)
| Err (e : Error).
Arguments Ok {A} a.
Arguments Err {A} e.

(** A method on an object of state [S]: the result together with the state
    the call leaves, also when the result is an error. *)
Definition M (S A : Type) : Type := S -> Result A * S.

Definition ret {S A} (a : A) : M S A := fun s => (Ok a, s).

Definition fail {S A} (e : Error) : M S A := fun s => (Err e, s).

Definition bind {S A B} (m : M S A) (f : A -> M S B) : M S B :=
  fun s =>
    match m s with
    | (Ok a, s') => f a s'
    | (Err e, s') => (Err e, s')
    end.

Definition gets {S A} (f : S -> A) : M S A := fun s => (Ok (f s), s).

Definition modify {S} (f : S -> S) : M S unit := fun s => (Ok tt, f s).

(** A const call that yields a result and leaves the object alone. *)
Definition liftR {S A} (r : Result A) : M S A := fun s => (r, s).

(** Run a method of a member object inside the object that owns it. *)
Definition zoom {S T A} (get : S -> T) (set : T -> S -> S) (m : M T A) : M S A :=
  fun s => let (r, t') := m (get s) in (r, set t' s).

Declare Scope method_scope.
Delimit Scope method_scope with method.
Notation "x <- m ;; k" := (bind m (fun x => k))
  (at level 61, m at next level, right associativity) : method_scope.
Notation "m ;; k" := (bind m (fun _ => k))
  (at level 61, right associativity) : method_scope.

(** ** common/mathutil.h *)

(** Modelled from the spec: [roundUp] of common/mathutil.h is not among the
    sources.  It rounds [value] up to the next multiple of [alignment] in the
    arithmetic of its operand type, so that the result wraps around when that
    multiple does not fit (the case [getSpaceRequired] tests for). *)
Definition roundUp (value alignment : Z) : Z :=
  let temp := to_uint (value + alignment - 1) in
  to_uint (temp - temp mod alignment).

(** Modelled from the spec: [CheckedRoundUp] of common/mathutil.h, the same
    rounding on checked numbers: invalid instead of wrapping. *)
Definition CheckedRoundUp (value alignment : Z) : CheckedNumeric :=
  match checked_add (checked_add (checked value) alignment) (-1) with
  | Some temp => checked (temp - temp mod alignment)
  | None => None
  end.

(** ** Attribute descriptors (libANGLE/VertexAttribute.h) *)

(** The fields of [gl::VertexAttribute] this file reads. *)
Module VertexAttribute.
Record t : Type := mk {
  enabled : bool;
  type : Z;          (* GLenum *)
  size : Z;          (* GLuint *)
  normalized : bool;
  pureInteger : bool
}.
End VertexAttribute.

(** Modelled from the spec: [gl::VertexBinding] is declared outside the
    sources; the byte stride and offset of an attribute derive from it. *)
Module VertexBinding.
Record t : Type := mk {
  stride : Z;
  offset : Z
}.
End VertexBinding.

(** [ComputeVertexAttributeStride] and [ComputeVertexAttributeOffset] of
    libANGLE/VertexAttribute.cpp are not among the sources: they are taken
    as given. *)
Class VertexAttributeLayout : Type := {
  ComputeVertexAttributeStride : VertexAttribute.t -> VertexBinding.t -> Z;
  ComputeVertexAttributeOffset : VertexAttribute.t -> VertexBinding.t -> Z
}.

(** ** Collaborators *)

(** [BufferFactoryD3D::getVertexSpaceRequired]: the unaligned number of bytes,
    written through an [unsigned int *]. *)
Class BufferFactoryD3D : Type := {
  getVertexSpaceRequired :
    VertexAttribute.t -> VertexBinding.t -> Z -> Z -> Result Z
}.

(** The out-parameter is an [unsigned int]. *)
Class BufferFactoryLaws `{BufferFactoryD3D} : Prop := {
  getVertexSpaceRequired_uint :
    forall attrib binding count instances r,
      getVertexSpaceRequired attrib binding count instances = Ok r -> is_uint r
}.

(** The arguments of a store besides the destination offset. *)
Record StoreArgs : Type := mkStoreArgs {
  sAttrib : VertexAttribute.t;
  sBinding : VertexBinding.t;
  sCurrentValueType : Z;       (* GLenum *)
  sStart : Z;                  (* GLint *)
  sCount : Z;                  (* size_t / GLsizei *)
  sInstances : Z;              (* GLsizei *)
  sSourceData : list Byte.byte
}.

(** The pure virtual methods of [rx::VertexBuffer], over the state [B] of an
    implementation. *)
Class VertexBufferImpl (B : Type) : Type := {
  vbGetBufferSize : B -> Z;
  vbInitialize : Z -> bool -> M B unit;
  vbSetBufferSize : Z -> M B unit;
  vbDiscard : M B unit;
  vbStoreVertexAttributes : StoreArgs -> Z -> M B unit;
  vbHintUnmapResource : B -> B
}.

(** What the callers in this file rely on from an implementation: sizes are
    [unsigned int]; a resize that succeeds makes room for the bytes asked for;
    a discard or a store leaves the capacity alone. *)
Class VertexBufferLaws (B : Type) `{VertexBufferImpl B} : Prop := {
  size_is_uint : forall b, is_uint (vbGetBufferSize b);
  initialize_size : forall n dyn b b',
      is_uint n ->
      vbInitialize n dyn b = (Ok tt, b') -> n <= vbGetBufferSize b';
  setBufferSize_size : forall n b b',
      is_uint n ->
      vbSetBufferSize n b = (Ok tt, b') -> n <= vbGetBufferSize b';
  discard_size : forall b b',
      vbDiscard b = (Ok tt, b') -> vbGetBufferSize b' = vbGetBufferSize b;
  store_size : forall a off b b',
      vbStoreVertexAttributes a off b = (Ok tt, b') ->
      vbGetBufferSize b' = vbGetBufferSize b
}.

(** ** VertexBuffer *)

Module VertexBuffer.

(** The members of the abstract base class. *)
Record t : Type := mk { mRefCount : Z; mSerial : Z }.

(** [unsigned int VertexBuffer::mNextSerial = 1;] *)
Definition mNextSerial_initial : Z := 1.

(** [mSerial = mNextSerial++;] on the object and the static counter. *)
Definition updateSerial (self : t) (mNextSerial : Z) : t * Z :=
  (mk (mRefCount self) mNextSerial, to_uint (mNextSerial + 1)).

(** The constructor: [mRefCount(1)], then [updateSerial()].  [mSerial] has
    no initializer; it is written before it can be read. *)
Definition construct (mNextSerial : Z) : t * Z :=
  updateSerial (mk 1 0) mNextSerial.

Definition getSerial (self : t) : Z := mSerial self.

Definition addRef (self : t) : t :=
  mk (to_uint (mRefCount self + 1)) (mSerial self).

(** [None] when the object deleted itself. *)
Definition release (self : t) : option t :=
  let n := to_uint (mRefCount self - 1) in
  if n =? 0 then None else Some (mk n (mSerial self)).

(** One assignment of a serial: by the constructor of a new buffer, or by
    [updateSerial] called on a buffer that exists. *)
Inductive Assignment : Type :=
| Constructed
| Updated (self : t).

(** The buffer as the assignment leaves it, and the static counter. *)
Definition assign (a : Assignment) (mNextSerial : Z) : t * Z :=
  match a with
  | Constructed => construct mNextSerial
  | Updated self => updateSerial self mNextSerial
  end.

(** A process makes the assignments [history 0], [history 1], ... in this
    order.  The number of assignments made and the static counter, after
    [k] of them. *)
Definition afterAssignments (history : N -> Assignment) (k : N) : N * Z :=
  N.iter k
    (fun st => (N.succ (fst st), snd (assign (history (fst st)) (snd st))))
    (0%N, mNextSerial_initial).

(** The serial that assignment [k] of the process hands out. *)
Definition serialAssigned (history : N -> Assignment) (k : N) : Z :=
  getSerial (fst (assign (history k) (snd (afterAssignments history k)))).

End VertexBuffer.

(** ** VertexBufferInterface *)

Module VertexBufferInterface.
Section WithBuffer.
Context {B : Type} `{VertexBufferImpl B} `{BufferFactoryD3D}.

Record t : Type := mk { mVertexBuffer : B; mDynamic : bool }.

Definition set_mVertexBuffer (b : B) (self : t) : t := mk b (mDynamic self).

(** A call through [mVertexBuffer->]. *)
Definition onBuffer {A} (m : M B A) : M t A := zoom mVertexBuffer set_mVertexBuffer m.

Definition getBufferSize (self : t) : Z := vbGetBufferSize (mVertexBuffer self).

Definition setBufferSize (size : Z) : M t unit :=
  fun self =>
    if getBufferSize self =? 0
    then onBuffer (vbInitialize size (mDynamic self)) self
    else onBuffer (vbSetBufferSize size) self.

Definition getSpaceRequired (attrib : VertexAttribute.t) (binding : VertexBinding.t)
           (count instances : Z) : Result Z :=
  match getVertexSpaceRequired attrib binding count instances with
  | Err e => Err e
  | Ok spaceRequired =>
      (* Align to 16-byte boundary *)
      let alignedSpaceRequired := roundUp spaceRequired 16 in
      if alignedSpaceRequired <? spaceRequired
      then Err (OutOfMemory
                  "Vertex buffer overflow in VertexBufferInterface::getSpaceRequired.")
      else Ok alignedSpaceRequired
  end.

Definition discard : M t unit := onBuffer vbDiscard.

End WithBuffer.
Arguments t B : clear implicits.
End VertexBufferInterface.

(** ** StreamingVertexBufferInterface *)

Module StreamingVertexBufferInterface.
Section WithBuffer.
Context {B : Type} `{VertexBufferImpl B} `{BufferFactoryD3D}.
Local Open Scope method_scope.

Record t : Type := mk {
  base : VertexBufferInterface.t B;
  mWritePosition : Z;      (* unsigned int *)
  mReservedSpace : Z       (* unsigned int *)
}.

Definition set_base (b : VertexBufferInterface.t B) (self : t) : t :=
  mk b (mWritePosition self) (mReservedSpace self).
Definition set_mWritePosition (n : Z) (self : t) : t :=
  mk (base self) n (mReservedSpace self).
Definition set_mReservedSpace (n : Z) (self : t) : t :=
  mk (base self) (mWritePosition self) n.

(** A call to a method of the base class. *)
Definition onBase {A} (m : M (VertexBufferInterface.t B) A) : M t A :=
  zoom base set_base m.

(** The constructor: [VertexBufferInterface(factory, true)],
    [mWritePosition(0)], [mReservedSpace(0)], around the buffer the factory
    created. *)
Definition construct (buffer : B) : t :=
  mk (VertexBufferInterface.mk buffer true) 0 0.

Definition getBufferSize (self : t) : Z :=
  VertexBufferInterface.getBufferSize (base self).

Definition initialize (initialSize : Z) : M t unit :=
  onBase (VertexBufferInterface.setBufferSize (to_uint initialSize)).

Definition reserveSpace (size : Z) : M t unit :=
  curBufferSize <- gets getBufferSize ;;
  if size >? curBufferSize then
    onBase (VertexBufferInterface.setBufferSize
              (Z.max size (to_uint (3 * curBufferSize) / 2))) ;;
    modify (set_mWritePosition 0)
  else
    writePosition <- gets mWritePosition ;;
    if to_uint (writePosition + size) >? curBufferSize then
      onBase VertexBufferInterface.discard ;;
      modify (set_mWritePosition 0)
    else
      ret tt.

(** The result is the offset written through [outStreamOffset]. *)
Definition storeDynamicAttribute (args : StoreArgs) : M t Z :=
  spaceRequired <- liftR (VertexBufferInterface.getSpaceRequired
                            (sAttrib args) (sBinding args)
                            (sCount args) (sInstances args)) ;;
  (* Protect against integer overflow *)
  writePosition <- gets mWritePosition ;;
  let checkedPosition := checked_add (checked writePosition) spaceRequired in
  if negb (IsValid checkedPosition) then
    fail (OutOfMemory
            "Internal error, new vertex buffer write position would overflow.")
  else
    reservedSpace <- gets mReservedSpace ;;
    reserveSpace reservedSpace ;;
    modify (set_mReservedSpace 0) ;;
    writePosition <- gets mWritePosition ;;
    onBase (VertexBufferInterface.onBuffer
              (vbStoreVertexAttributes args writePosition)) ;;
    modify (set_mWritePosition (to_uint (writePosition + spaceRequired))) ;;
    ret writePosition.

Definition decimal (z : Z) : string :=
  NilZero.string_of_uint (N.to_uint (Z.to_N z)).

Definition reserveVertexSpace (attrib : VertexAttribute.t)
           (binding : VertexBinding.t) (count instances : Z) : M t unit :=
  requiredSpace <- liftR (getVertexSpaceRequired attrib binding count instances) ;;
  (* Align to 16-byte boundary *)
  reservedSpace <- gets mReservedSpace ;;
  let alignedRequiredSpace :=
    checked_add (CheckedRoundUp requiredSpace 16) reservedSpace in
  (* Protect against integer overflow *)
  match alignedRequiredSpace with
  | None =>
      fail (OutOfMemory
              ("Unable to reserve " ++ decimal requiredSpace ++
               " extra bytes in internal vertex buffer, it would result in an overflow."))
  | Some v => modify (set_mReservedSpace v)
  end.

End WithBuffer.
Arguments t B : clear implicits.
End StreamingVertexBufferInterface.

(** ** StaticVertexBufferInterface *)

Module AttributeSignature.
Section WithLayout.
Context `{VertexAttributeLayout}.

Record t : Type := mk {
  type : Z;            (* GLenum *)
  size : Z;            (* GLuint *)
  stride : Z;          (* GLuint *)
  normalized : bool;
  pureInteger : bool;
  offset : Z           (* size_t *)
}.

(** The constructor. *)
Definition initial : t := mk GL_NONE 0 0 false false 0.

(** The answer where the remainder [%] on [size_t] is defined.  By a zero
    stride it is not: [Partial.matchesAttribute] below has no result there,
    where this function computes with the dividend. *)
Definition matchesAttribute (self : t) (attrib : VertexAttribute.t)
           (binding : VertexBinding.t) : bool :=
  let attribStride := to_size_t (ComputeVertexAttributeStride attrib binding) in
  if negb (type self =? VertexAttribute.type attrib)
     || negb (size self =? VertexAttribute.size attrib)
     || negb (to_uint (stride self) =? attribStride)
     || negb (Bool.eqb (normalized self) (VertexAttribute.normalized attrib))
     || negb (Bool.eqb (pureInteger self) (VertexAttribute.pureInteger attrib))
  then false
  else
    let attribOffset :=
      to_size_t (ComputeVertexAttributeOffset attrib binding) mod attribStride in
    offset self =? attribOffset.

(** The signature where the remainder is defined (see [Partial.set]). *)
Definition set (attrib : VertexAttribute.t) (binding : VertexBinding.t) : t :=
  let stride' := to_uint (to_size_t (ComputeVertexAttributeStride attrib binding)) in
  mk (VertexAttribute.type attrib)
     (VertexAttribute.size attrib)
     stride'
     (VertexAttribute.normalized attrib)
     (VertexAttribute.pureInteger attrib)
     (to_size_t (ComputeVertexAttributeOffset attrib binding)
        mod to_size_t (ComputeVertexAttributeStride attrib binding)).

End WithLayout.
End AttributeSignature.

Module StaticVertexBufferInterface.
Section WithBuffer.
Context {B : Type} `{VertexBufferImpl B} `{BufferFactoryD3D}
        `{VertexAttributeLayout}.
Local Open Scope method_scope.

Record t : Type := mk {
  base : VertexBufferInterface.t B;
  mSignature : AttributeSignature.t
}.

Definition set_base (b : VertexBufferInterface.t B) (self : t) : t :=
  mk b (mSignature self).
Definition set_mSignature (s : AttributeSignature.t) (self : t) : t :=
  mk (base self) s.

Definition onBase {A} (m : M (VertexBufferInterface.t B) A) : M t A :=
  zoom base set_base m.

(** The constructor: [VertexBufferInterface(factory, false)] and a default
    signature. *)
Definition construct (buffer : B) : t :=
  mk (VertexBufferInterface.mk buffer false) AttributeSignature.initial.

Definition matchesAttribute (self : t) (attrib : VertexAttribute.t)
           (binding : VertexBinding.t) : bool :=
  AttributeSignature.matchesAttribute (mSignature self) attrib binding.

Definition setAttribute (attrib : VertexAttribute.t) (binding : VertexBinding.t)
  : M t unit :=
  modify (set_mSignature (AttributeSignature.set attrib binding)).

(** [ASSERT(attrib.enabled)] is a debug check with no effect on the state;
    [count] is a [GLsizei] converted to the [size_t] of [getSpaceRequired]. *)
Definition storeStaticAttribute (attrib : VertexAttribute.t)
           (binding : VertexBinding.t) (start count instances : Z)
           (sourceData : list Byte.byte) : M t unit :=
  spaceRequired <- liftR (VertexBufferInterface.getSpaceRequired
                            attrib binding (to_size_t count) instances) ;;
  onBase (VertexBufferInterface.setBufferSize spaceRequired) ;;
  onBase (VertexBufferInterface.onBuffer
            (vbStoreVertexAttributes
               (mkStoreArgs attrib binding GL_NONE start count instances sourceData)
               0)) ;;
  modify (set_mSignature (AttributeSignature.set attrib binding)) ;;
  onBase (VertexBufferInterface.onBuffer (modify vbHintUnmapResource)) ;;
  ret tt.

End WithBuffer.
Arguments t B : clear implicits.
End StaticVertexBufferInterface.

(** ** The remainder by a zero stride *)

(** [AttributeSignature::matchesAttribute] and [AttributeSignature::set] with
    the remainder as C++ has it: there is no result ([None]) where the
    source evaluates [%] by a stride of zero.  Where there is a result it is
    the one of the functions above. *)
Module Partial.
Section WithLayout.
Context `{VertexAttributeLayout}.

(** [a % b] on [size_t]. *)
Definition remainder (a b : Z) : option Z :=
  if b =? 0 then None else Some (a mod b).

Definition matchesAttribute (self : AttributeSignature.t)
           (attrib : VertexAttribute.t) (binding : VertexBinding.t) : option bool :=
  let attribStride := to_size_t (ComputeVertexAttributeStride attrib binding) in
  if negb (AttributeSignature.type self =? VertexAttribute.type attrib)
     || negb (AttributeSignature.size self =? VertexAttribute.size attrib)
     || negb (to_uint (AttributeSignature.stride self) =? attribStride)
     || negb (Bool.eqb (AttributeSignature.normalized self)
                (VertexAttribute.normalized attrib))
     || negb (Bool.eqb (AttributeSignature.pureInteger self)
                (VertexAttribute.pureInteger attrib))
  then Some false
  else
    match remainder (to_size_t (ComputeVertexAttributeOffset attrib binding))
            attribStride with
    | Some attribOffset => Some (AttributeSignature.offset self =? attribOffset)
    | None => None
    end.

Definition set (attrib : VertexAttribute.t) (binding : VertexBinding.t)
  : option AttributeSignature.t :=
  let stride' := to_uint (to_size_t (ComputeVertexAttributeStride attrib binding)) in
  match remainder (to_size_t (ComputeVertexAttributeOffset attrib binding))
          (to_size_t (ComputeVertexAttributeStride attrib binding)) with
  | Some offset' =>
      Some (AttributeSignature.mk
              (VertexAttribute.type attrib)
              (VertexAttribute.size attrib)
              stride'
              (VertexAttribute.normalized attrib)
              (VertexAttribute.pureInteger attrib)
              offset')
  | None => None
  end.

(** [StaticVertexBufferInterface::matchesAttribute]. *)
Definition static_matchesAttribute {B : Type} (self : StaticVertexBufferInterface.t B)
           (attrib : VertexAttribute.t) (binding : VertexBinding.t) : option bool :=
  matchesAttribute (StaticVertexBufferInterface.mSignature self) attrib binding.

End WithLayout.
End Partial.

(** ** A buffer handle, a factory and a layout to run the code on *)

Module Sim.

(** The calls a buffer handle accepted, oldest first. *)
Inductive Event : Type :=
| Initialize (size : Z) (dynamicUsage : bool)
| SetBufferSize (size : Z)
| Discard
| StoreVertexAttributes (offset : Z) (count : Z)
| HintUnmapResource.

(** Modelled from the spec: the Buffer Handle, whose implementations are
    outside the sources.  Its capacity is 0 or the size of the last resize
    it accepted; a resize the device cannot satisfy is reported as out of
    memory and leaves the handle as it was; a discard invalidates the
    content without resizing. *)
Record Buffer : Type := mk {
  capacity : Z;
  deviceLimit : Z;
  calls : list Event
}.

Definition record (e : Event) (b : Buffer) : Buffer :=
  mk (capacity b) (deviceLimit b) (calls b ++ [e]).

Definition resize (e : Event) (size : Z) : M Buffer unit :=
  fun b =>
    if to_uint size <=? deviceLimit b
    then (Ok tt, mk (to_uint size) (deviceLimit b) (calls b ++ [e]))
    else (Err (OutOfMemory "Failed to allocate internal vertex buffer."), b).

#[export] Instance buffer : VertexBufferImpl Buffer := {
  vbGetBufferSize b := to_uint (capacity b);
  vbInitialize size dyn := resize (Initialize size dyn) size;
  vbSetBufferSize size := resize (SetBufferSize size) size;
  vbDiscard := modify (record Discard);
  vbStoreVertexAttributes args offset :=
    modify (record (StoreVertexAttributes offset (sCount args)));
  vbHintUnmapResource := record HintUnmapResource
}.

(** A handle nobody has initialized, on a device with [limit] bytes. *)
Definition fresh (limit : Z) : Buffer := mk 0 limit [].

Definition overflow : Error :=
  OutOfMemory "New vertex buffer size would result in an overflow.".

(** Modelled from the spec: the bytes-required primitive of the factory,
    overflow-checked.  An instance count of 0 means not instanced;
    [size] components of one byte per element. *)
Definition bytesRequired (attrib : VertexAttribute.t) (binding : VertexBinding.t)
           (count instances : Z) : Result Z :=
  let elementCount := if instances =? 0 then count else instances in
  let bytes := VertexAttribute.size attrib * elementCount in
  if (0 <=? bytes) && (bytes <=? UINT_MAX) then Ok bytes else Err overflow.

#[export] Instance factory : BufferFactoryD3D := {
  getVertexSpaceRequired := bytesRequired
}.

(** Modelled from the spec: stride and offset as the binding gives them. *)
#[export] Instance layout : VertexAttributeLayout := {
  ComputeVertexAttributeStride _ binding := VertexBinding.stride binding;
  ComputeVertexAttributeOffset _ binding := VertexBinding.offset binding
}.

(** An enabled attribute of [n] unsigned bytes per vertex. *)
Definition bytes (n : Z) : VertexAttribute.t :=
  VertexAttribute.mk true 5121 n false false.

Definition binding (stride offset : Z) : VertexBinding.t :=
  VertexBinding.mk stride offset.

(** A store of [n] vertices of one byte, not instanced. *)
Definition store (n : Z) : StoreArgs :=
  mkStoreArgs (bytes 1) (binding 1 0) GL_NONE 0 n 0 [].

End Sim.

(** ** Vocabulary of the properties *)

(** [v] is the smallest multiple of 16 that is at least [r]. *)
Definition smallest_multiple_of_16 (r v : Z) : Prop :=
  v mod 16 = 0 /\ r <= v /\ forall m, m mod 16 = 0 -> r <= m -> v <= m.

Definition getSpaceRequired_overflow : Error :=
  OutOfMemory "Vertex buffer overflow in VertexBufferInterface::getSpaceRequired.".

Definition writePosition_overflow : Error :=
  OutOfMemory "Internal error, new vertex buffer write position would overflow.".

(** [1.5 * c <= capacity] over the rationals, cleared of the fraction. *)
Definition one_and_a_half_le (c capacity : Z) : Prop := 3 * c <= 2 * capacity.

(** A streaming interface over a simulated buffer of the given capacity on a
    device of 4 GiB, with the given cursor and pending reservation. *)
Definition arena (capacity writePosition reservedSpace : Z)
  : StreamingVertexBufferInterface.t Sim.Buffer :=
  StreamingVertexBufferInterface.mk
    (VertexBufferInterface.mk (Sim.mk capacity UINT_MAX []) true)
    writePosition reservedSpace.

Section Sequences.
Context {B : Type} `{VertexBufferImpl B} `{BufferFactoryD3D}.
Import StreamingVertexBufferInterface.
Local Open Scope method_scope.

(** [reserveSpace size] takes neither its grow nor its discard branch. *)
Definition keeps (size : Z) (self : t B) : bool :=
  negb (size >? getBufferSize self)
  && negb (to_uint (mWritePosition self + size) >? getBufferSize self).

(** Successive [storeDynamicAttribute] calls on one interface, up to the
    first error; the offsets they return, in order. *)
Fixpoint storeAll (calls : list StoreArgs) : M (t B) (list Z) :=
  match calls with
  | [] => ret []
  | args :: rest =>
      offset <- storeDynamicAttribute args ;;
      offsets <- storeAll rest ;;
      ret (offset :: offsets)
  end.

(** No call of the sequence discards or grows the buffer. *)
Fixpoint undisturbed (calls : list StoreArgs) (self : t B) : Prop :=
  match calls with
  | [] => True
  | args :: rest =>
      keeps (mReservedSpace self) self = true /\
      undisturbed rest (snd (storeDynamicAttribute args self))
  end.

(** The aligned size a call requires. *)
Definition alignedSize (args : StoreArgs) : Z :=
  match VertexBufferInterface.getSpaceRequired
          (sAttrib args) (sBinding args) (sCount args) (sInstances args) with
  | Ok v => v
  | Err _ => 0
  end.

Definition total (sizes : list Z) : Z := fold_right Z.add 0 sizes.

End Sequences.

(** Offsets and sizes of successive calls, related call by call. *)
Definition successive (R : Z -> Z -> Z -> Prop) (offsets sizes : list Z) : Prop :=
  forall i o s o',
    nth_error offsets i = Some o ->
    nth_error sizes i = Some s ->
    nth_error offsets (S i) = Some o' ->
    R o s o'.

(** The range of an earlier call ends before the offset of any later one. *)
Definition pairwise_disjoint (offsets sizes : list Z) : Prop :=
  forall i j o s o',
    (i < j)%nat ->
    nth_error offsets i = Some o ->
    nth_error sizes i = Some s ->
    nth_error offsets j = Some o' ->
    o + s <= o'.

(** Strictly increasing and not overlapping. *)
Definition strictly_increasing_disjoint : list Z -> list Z -> Prop :=
  successive (fun o s o' => o < o' /\ o + s <= o').

(** Not overlapping and never decreasing; increasing past a store that takes
    room. *)
Definition increasing_disjoint : list Z -> list Z -> Prop :=
  successive (fun o s o' => o + s <= o' /\ o <= o' /\ (0 < s -> o < o')).

(** The statements whose failure on the code is shown below, at the input
    they are refuted on. *)
Section Statements.
Import StreamingVertexBufferInterface.
#[local] Existing Instances Sim.buffer Sim.factory.

(** Successive stores return strictly increasing, disjoint offsets. *)
Definition strictly_increasing_statement
           (calls : list StoreArgs) (self : t Sim.Buffer) : Prop :=
  forall offsets self',
    storeAll calls self = (Ok offsets, self') ->
    undisturbed calls self ->
    total (map alignedSize calls) < getBufferSize self ->
    strictly_increasing_disjoint offsets (map alignedSize calls).

(** A successful [reserveSpace s] above the capacity [c] leaves a capacity
    of at least [max s (1.5 * c)] and the cursor at 0. *)
Definition grows_by_half_statement (s : Z) (self : t Sim.Buffer) : Prop :=
  getBufferSize self < s ->
  forall self',
    reserveSpace s self = (Ok tt, self') ->
    s <= getBufferSize self' /\
    one_and_a_half_le (getBufferSize self) (getBufferSize self') /\
    mWritePosition self' = 0.

(** With cursor + s above the capacity and s within it, [reserveSpace s]
    discards: capacity unchanged, cursor 0. *)
Definition discards_statement (s : Z) (self : t Sim.Buffer) : Prop :=
  getBufferSize self < mWritePosition self + s ->
  s <= getBufferSize self ->
  forall self',
    reserveSpace s self = (Ok tt, self') ->
    getBufferSize self' = getBufferSize self /\ mWritePosition self' = 0.

(** Two buffers constructed in one process have different serials. *)
Definition unique_serials_statement
           (history : N -> VertexBuffer.Assignment) (i j : N) : Prop :=
  history i = VertexBuffer.Constructed ->
  history j = VertexBuffer.Constructed ->
  i <> j ->
  VertexBuffer.serialAssigned history i <> VertexBuffer.serialAssigned history j.

(** A process that only constructs buffers. *)
Definition constructions : N -> VertexBuffer.Assignment :=
  fun _ => VertexBuffer.Constructed.

End Statements.

(** ** The end-to-end scenario *)

Section Scenario.
Import StreamingVertexBufferInterface.
#[local] Existing Instances Sim.buffer Sim.factory.
Local Open Scope method_scope.

(** An attribute reserved, then stored. *)
Definition reserveAndStore (args : StoreArgs) : M (t Sim.Buffer) Z :=
  reserveVertexSpace (sAttrib args) (sBinding args) (sCount args) (sInstances args) ;;
  storeDynamicAttribute args.

(** An arena of 1024 bytes and the first two attributes, of 100 and 200
    bytes. *)
Definition scenario_first_two : M (t Sim.Buffer) (list Z) :=
  initialize 1024 ;;
  o1 <- reserveAndStore (Sim.store 100) ;;
  o2 <- reserveAndStore (Sim.store 200) ;;
  ret [o1; o2].

(** The whole scenario: the third attribute has 800 bytes. *)
Definition scenario : M (t Sim.Buffer) (list Z) :=
  offsets <- scenario_first_two ;;
  o3 <- reserveAndStore (Sim.store 800) ;;
  ret (offsets ++ [o3]).

Definition scenario_start : t Sim.Buffer := construct (Sim.fresh UINT_MAX).

(** The calls that lead [reserveSpace] to a sum of cursor and reservation
    beyond 2^32: a buffer of 3 GiB, 2 GiB stored, then two attributes of
    1 GiB and 1 GiB + 16 reserved together and stored one after the
    other. *)
Definition wrapped_reservation : M (t Sim.Buffer) (list Z) :=
  initialize 3221225472 ;;
  o1 <- reserveAndStore (Sim.store 2147483648) ;;
  reserveVertexSpace (Sim.bytes 1) (Sim.binding 1 0) 1073741824 0 ;;
  reserveVertexSpace (Sim.bytes 1) (Sim.binding 1 0) 1073741840 0 ;;
  o2 <- storeDynamicAttribute (Sim.store 1073741824) ;;
  o3 <- storeDynamicAttribute (Sim.store 1073741840) ;;
  ret [o1; o2; o3].

(** The arena over a buffer that accepted the given calls. *)
Definition arena_after (log : list Sim.Event) (writePosition reservedSpace : Z)
  : t Sim.Buffer :=
  mk (VertexBufferInterface.mk (Sim.mk 1024 UINT_MAX log) true)
     writePosition reservedSpace.

(** The sizes of the resizes a buffer accepted. *)
Definition resizes (log : list Sim.Event) : list Z :=
  flat_map (fun e => match e with
                     | Sim.Initialize n _ | Sim.SetBufferSize n => [n]
                     | _ => []
                     end) log.

(** The buffer of the scenario grew after its initialization. *)
Definition scenario_grows_statement : Prop :=
  exists n m rest,
    resizes (Sim.calls (VertexBufferInterface.mVertexBuffer
                          (base (snd (scenario scenario_start)))))
    = n :: m :: rest.

End Scenario.

(** ** Descriptors as the code reads them *)

Section Descriptors.
Context `{VertexAttributeLayout}.

(** The computed stride and byte offset of a descriptor, as the [size_t]
    values the code computes with. *)
Definition strideOf (attrib : VertexAttribute.t) (binding : VertexBinding.t) : Z :=
  to_size_t (ComputeVertexAttributeStride attrib binding).

Definition offsetOf (attrib : VertexAttribute.t) (binding : VertexBinding.t) : Z :=
  to_size_t (ComputeVertexAttributeOffset attrib binding).

(** Two attributes with the same component type, component count,
    normalization flag and integer flag. *)
Definition same_format (a a' : VertexAttribute.t) : Prop :=
  VertexAttribute.type a' = VertexAttribute.type a /\
  VertexAttribute.size a' = VertexAttribute.size a /\
  VertexAttribute.normalized a' = VertexAttribute.normalized a /\
  VertexAttribute.pureInteger a' = VertexAttribute.pureInteger a.

End Descriptors.

(** ** The statements on the static signature *)

Section Agreement.
Context `{VertexAttributeLayout}.

(** The component type, component count, computed stride, normalization flag
    and integer flag of the descriptor equal the cached ones, and its
    computed byte offset modulo its computed stride equals the cached
    offset. *)
Definition signature_agrees (sig : AttributeSignature.t)
           (attrib : VertexAttribute.t) (binding : VertexBinding.t) : Prop :=
  AttributeSignature.type sig = VertexAttribute.type attrib /\
  AttributeSignature.size sig = VertexAttribute.size attrib /\
  to_uint (AttributeSignature.stride sig) = strideOf attrib binding /\
  AttributeSignature.normalized sig = VertexAttribute.normalized attrib /\
  AttributeSignature.pureInteger sig = VertexAttribute.pureInteger attrib /\
  offsetOf attrib binding mod strideOf attrib binding = AttributeSignature.offset sig.

End Agreement.

Section StaticStatements.
Import StaticVertexBufferInterface.
#[local] Existing Instances Sim.buffer Sim.factory Sim.layout.

(** [matchesAttribute] returns, and what it returns is true exactly when the
    descriptor agrees with the cached signature. *)
Definition matches_statement (self : t Sim.Buffer)
           (attrib : VertexAttribute.t) (binding : VertexBinding.t) : Prop :=
  exists answer,
    Partial.static_matchesAttribute self attrib binding = Some answer /\
    (answer = true <-> signature_agrees (mSignature self) attrib binding).

(** After a successful [storeStaticAttribute] or [setAttribute] with a
    descriptor of nonzero stride, [matchesAttribute] returns true for every
    descriptor that differs only by a whole number of strides in its byte
    offset. *)
Definition round_trip_statement
           (attrib : VertexAttribute.t) (binding : VertexBinding.t)
           (start count instances : Z) (sourceData : list Byte.byte)
           (self : t Sim.Buffer) : Prop :=
  strideOf attrib binding <> 0 ->
  forall attrib' binding' k self',
    same_format attrib attrib' ->
    strideOf attrib' binding' = strideOf attrib binding ->
    offsetOf attrib' binding' = offsetOf attrib binding + k * strideOf attrib binding ->
    storeStaticAttribute attrib binding start count instances sourceData self
    = (Ok tt, self') \/
    setAttribute attrib binding self = (Ok tt, self') ->
    Partial.static_matchesAttribute self' attrib' binding' = Some true.

(** The descriptor with no type, no component and a stride of zero. *)
Definition no_attribute : VertexAttribute.t :=
  VertexAttribute.mk true GL_NONE 0 false false.

End StaticStatements.

(** ** Draws: attributes reserved together, then stored *)

Section Draws.
Context {B : Type} `{VertexBufferImpl B} `{BufferFactoryD3D}.
Import StreamingVertexBufferInterface.
Local Open Scope method_scope.

(** [reserveVertexSpace] for the attribute of a store. *)
Definition reserveFor (args : StoreArgs) : M (t B) unit :=
  reserveVertexSpace (sAttrib args) (sBinding args) (sCount args) (sInstances args).

(** The attributes of a draw reserved one after the other, up to the first
    error. *)
Fixpoint reserveAll (calls : list StoreArgs) : M (t B) unit :=
  match calls with
  | [] => ret tt
  | args :: rest => reserveFor args ;; reserveAll rest
  end.

(** A draw: every attribute reserved, then every attribute stored. *)
Definition reserveAndStoreAll (calls : list StoreArgs) : M (t B) (list Z) :=
  reserveAll calls ;; storeAll calls.

(** Calls of the public methods of a streaming interface. *)
Inductive Call : Type :=
| Reserve (args : StoreArgs)
| Store (args : StoreArgs)
| Initialize (initialSize : Z)
| SetBufferSize (size : Z)
| Discard.

(** The calls made one after the other, errors or not; the offsets the
    successful stores returned, in order, and the interface at the end. *)
Fixpoint runCalls (calls : list Call) (self : t B) : list Z * t B :=
  match calls with
  | [] => ([], self)
  | Store args :: rest =>
      let (r, self') := storeDynamicAttribute args self in
      let (offsets, final) := runCalls rest self' in
      (match r with Ok offset => offset :: offsets | Err _ => offsets end, final)
  | Reserve args :: rest => runCalls rest (snd (reserveFor args self))
  | Initialize n :: rest => runCalls rest (snd (initialize n self))
  | SetBufferSize n :: rest =>
      runCalls rest (snd (onBase (VertexBufferInterface.setBufferSize n) self))
  | Discard :: rest => runCalls rest (snd (onBase VertexBufferInterface.discard self))
  end.

End Draws.

(** ** Reference counts *)

(** [k] calls of [addRef]. *)
Definition addRefs (k : nat) (self : VertexBuffer.t) : VertexBuffer.t :=
  Nat.iter k VertexBuffer.addRef self.

(** [k] calls of [release], as long as the object is there. *)
Fixpoint releases (k : nat) (self : VertexBuffer.t) : option VertexBuffer.t :=
  match k with
  | O => Some self
  | S k' =>
      match VertexBuffer.release self with
      | Some self' => releases k' self'
      | None => None
      end
  end.

(** Every range [offset, offset + size) lies within [capacity]. *)
Definition within_capacity (offsets sizes : list Z) (capacity : Z) : Prop :=
  forall i o s,
    nth_error offsets i = Some o ->
    nth_error sizes i = Some s ->
    0 <= o /\ o + s <= capacity.

(** The hint to unmap is no resize. *)
Class VertexBufferHintLaws (B : Type) `{VertexBufferImpl B} : Prop := {
  hint_size : forall b, vbGetBufferSize (vbHintUnmapResource b) = vbGetBufferSize b
}.

(** The message of [reserveVertexSpace] for [requiredSpace] bytes. *)
Definition reserveVertexSpace_overflow (requiredSpace : Z) : Error :=
  OutOfMemory
    ("Unable to reserve " ++ StreamingVertexBufferInterface.decimal requiredSpace ++
     " extra bytes in internal vertex buffer, it would result in an overflow.").

(** An arena on a device that has [limit] bytes. *)
Definition arena_on (limit capacity writePosition reservedSpace : Z)
  : StreamingVertexBufferInterface.t Sim.Buffer :=
  StreamingVertexBufferInterface.mk
    (VertexBufferInterface.mk (Sim.mk capacity limit []) true)
    writePosition reservedSpace.

(** * Properties *)

#[local] Arguments Z.add : simpl never.
#[local] Arguments Z.sub : simpl never.
#[local] Arguments Z.mul : simpl never.
#[local] Arguments Z.div : simpl never.
#[local] Arguments Z.modulo : simpl never.
#[local] Arguments Z.max : simpl never.
#[local] Arguments to_uint : simpl never.
#[local] Arguments to_size_t : simpl never.

(** ** Arithmetic of the machine integers *)

Lemma to_uint_small z : is_uint z -> to_uint z = z.
Proof. unfold is_uint, UINT_MAX, to_uint. intros. apply Z.mod_small. lia. Qed.

Lemma to_uint_is_uint z : is_uint (to_uint z).
Proof.
  unfold is_uint, UINT_MAX, to_uint.
  pose proof (Z.mod_pos_bound z 4294967296). lia.
Qed.

Lemma checked_Some z v : checked z = Some v <-> is_uint z /\ v = z.
Proof.
  unfold checked, is_uint.
  destruct (0 <=? z) eqn:E1; destruct (z <=? UINT_MAX) eqn:E2; simpl;
    split; try discriminate; try (intros [= <-]); try lia; try (intros; f_equal; lia).
Qed.

Lemma checked_None z : checked z = None <-> ~ is_uint z.
Proof.
  unfold checked, is_uint.
  destruct (0 <=? z) eqn:E1; destruct (z <=? UINT_MAX) eqn:E2; simpl;
    split; try discriminate; try lia; intros; try reflexivity; lia.
Qed.

(** [roundUp] below the last multiple of 16 of the type. *)
Lemma roundUp_fits r :
  0 <= r <= 4294967280 ->
  roundUp r 16 = 16 * ((r + 15) / 16) /\ smallest_multiple_of_16 r (roundUp r 16).
Proof.
  intros Hr. unfold roundUp, to_uint, smallest_multiple_of_16.
  replace (r + 16 - 1) with (r + 15) by lia.
  rewrite (Z.mod_small (r + 15)) by lia.
  assert (E : (r + 15) - (r + 15) mod 16 = 16 * ((r + 15) / 16))
    by (pose proof (Z.div_mod (r + 15) 16); lia).
  rewrite E.
  assert (B : 0 <= 16 * ((r + 15) / 16) <= 4294967280)
    by (Z.div_mod_to_equations; lia).
  rewrite Z.mod_small by lia.
  repeat split.
  - rewrite Z.mul_comm. apply Z.mod_mul. lia.
  - Z.div_mod_to_equations; lia.
  - intros m Hm Hle. Z.div_mod_to_equations; lia.
Qed.

(** [roundUp] above it: the result wraps around to 0. *)
Lemma roundUp_wraps r :
  4294967280 < r <= UINT_MAX -> roundUp r 16 = 0.
Proof.
  unfold UINT_MAX. intros Hr. unfold roundUp, to_uint.
  Z.div_mod_to_equations; lia.
Qed.

(** ** getSpaceRequired *)

Section SpaceRequired.
Context `{FL : BufferFactoryLaws}.

Lemma getSpaceRequired_cases attrib binding count instances r :
  getVertexSpaceRequired attrib binding count instances = Ok r ->
  VertexBufferInterface.getSpaceRequired attrib binding count instances =
    if r <=? 4294967280 then Ok (roundUp r 16) else Err getSpaceRequired_overflow.
Proof.
  intros E. pose proof (getVertexSpaceRequired_uint _ _ _ _ _ E) as U.
  unfold VertexBufferInterface.getSpaceRequired. rewrite E.
  destruct (r <=? 4294967280) eqn:L.
  - destruct (roundUp_fits r) as [_ (_ & Hle & _)]; [unfold is_uint in U; lia|].
    destruct (roundUp r 16 <? r) eqn:C; [lia | reflexivity].
  - unfold is_uint in U. rewrite roundUp_wraps by lia.
    destruct (0 <? r) eqn:C; [reflexivity | lia].
Qed.

(** C4. Whatever unaligned size [r] the factory computes,
    [getSpaceRequired] returns the smallest multiple of 16 that is at least
    [r] when that multiple fits an unsigned 32-bit integer, and the
    out-of-memory error when it does not; a value it returns is therefore
    never a truncation of that multiple. *)
Theorem getSpaceRequired_smallest_multiple attrib binding count instances r :
  getVertexSpaceRequired attrib binding count instances = Ok r ->
  exists v,
    smallest_multiple_of_16 r v /\
    (v <= UINT_MAX ->
     VertexBufferInterface.getSpaceRequired attrib binding count instances = Ok v) /\
    (UINT_MAX < v ->
     VertexBufferInterface.getSpaceRequired attrib binding count instances =
       Err getSpaceRequired_overflow) /\
    (forall v',
        VertexBufferInterface.getSpaceRequired attrib binding count instances = Ok v' ->
        v' = v).
Proof.
  intros E. pose proof (getVertexSpaceRequired_uint _ _ _ _ _ E) as U.
  rewrite (getSpaceRequired_cases _ _ _ _ _ E).
  unfold is_uint, UINT_MAX in *.
  destruct (r <=? 4294967280) eqn:L.
  - destruct (roundUp_fits r) as [Hv Hs]; [lia|].
    exists (roundUp r 16). split; [exact Hs|]. split; [reflexivity|].
    split; [|intros v' [= <-]; reflexivity].
    rewrite Hv. intros. Z.div_mod_to_equations; lia.
  - exists 4294967296. split; [|split; [lia | split; [reflexivity | discriminate]]].
    unfold smallest_multiple_of_16. repeat split; try lia.
    intros m Hm Hle. Z.div_mod_to_equations; lia.
Qed.

End SpaceRequired.

(** ** The simulated collaborators satisfy the laws *)

Lemma Sim_bytesRequired_uint attrib binding count instances r :
  Sim.bytesRequired attrib binding count instances = Ok r -> is_uint r.
Proof.
  unfold Sim.bytesRequired, is_uint.
  destruct (_ && _) eqn:E; [|discriminate].
  intros [= <-]. apply andb_prop in E. lia.
Qed.

Lemma Sim_factory_laws : @BufferFactoryLaws Sim.factory.
Proof. constructor. exact Sim_bytesRequired_uint. Defined.

Lemma Sim_resize_size e n b b' :
  is_uint n -> Sim.resize e n b = (Ok tt, b') ->
  n <= to_uint (Sim.capacity b').
Proof.
  intros U. unfold Sim.resize.
  destruct (_ <=? _); [|discriminate].
  intros [= <-]. simpl. rewrite !to_uint_small; auto using to_uint_is_uint. lia.
Qed.

Lemma Sim_buffer_laws : @VertexBufferLaws Sim.Buffer Sim.buffer.
Proof.
  constructor; simpl.
  - intros b. apply to_uint_is_uint.
  - intros n dyn b b'. apply Sim_resize_size.
  - intros n b b'. apply Sim_resize_size.
  - intros b b' [= <-]. reflexivity.
  - intros a off b b' [= <-]. reflexivity.
Defined.

(** ** reserveSpace *)

Ltac run := unfold bind, gets, modify, ret, fail, liftR; simpl.

Section Streaming.
Context {B : Type} `{VB : VertexBufferImpl B} `{F : BufferFactoryD3D}.
Import StreamingVertexBufferInterface.
Local Open Scope method_scope.

(** The three paths of [reserveSpace], by its two tests. *)
Lemma reserveSpace_grow_path size (self : t B) :
  getBufferSize self < size ->
  reserveSpace size self =
    (onBase (VertexBufferInterface.setBufferSize
               (Z.max size (to_uint (3 * getBufferSize self) / 2))) ;;
     modify (set_mWritePosition 0)) self.
Proof.
  intros Hlt. unfold reserveSpace. run.
  destruct (size >? getBufferSize self) eqn:E; [reflexivity | lia].
Qed.

Lemma reserveSpace_discard_path size (self : t B) :
  size <= getBufferSize self ->
  getBufferSize self < to_uint (mWritePosition self + size) ->
  reserveSpace size self =
    (onBase VertexBufferInterface.discard ;; modify (set_mWritePosition 0)) self.
Proof.
  intros Hle Hgt. unfold reserveSpace. run.
  destruct (size >? getBufferSize self) eqn:E; [lia|].
  destruct (to_uint (mWritePosition self + size) >? getBufferSize self) eqn:E';
    [reflexivity | lia].
Qed.

Lemma reserveSpace_keep_path size (self : t B) :
  size <= getBufferSize self ->
  to_uint (mWritePosition self + size) <= getBufferSize self ->
  reserveSpace size self = (Ok tt, self).
Proof.
  intros Hle Hle'. unfold reserveSpace. run.
  destruct (size >? getBufferSize self) eqn:E; [lia|].
  destruct (to_uint (mWritePosition self + size) >? getBufferSize self) eqn:E';
    [lia | reflexivity].
Qed.

Lemma interface_setBufferSize_size `{!VertexBufferLaws B} n (i i' : VertexBufferInterface.t B) :
  is_uint n ->
  VertexBufferInterface.setBufferSize n i = (Ok tt, i') ->
  n <= VertexBufferInterface.getBufferSize i'.
Proof.
  intros U. unfold VertexBufferInterface.setBufferSize,
    VertexBufferInterface.onBuffer, zoom, VertexBufferInterface.getBufferSize.
  destruct (_ =? 0).
  - destruct (vbInitialize _ _ _) as [[[]|e] b'] eqn:E; intros [= <-]. simpl.
    eapply initialize_size; eauto.
  - destruct (vbSetBufferSize _ _) as [[[]|e] b'] eqn:E; intros [= <-]. simpl.
    eapply setBufferSize_size; eauto.
Qed.

(** A successful [reserveSpace] above the capacity: the new capacity holds
    the request and the 3/2 of the old capacity the code computes, and the
    cursor is 0. *)
Lemma reserveSpace_grow_result `{!VertexBufferLaws B} size (self self' : t B) :
  is_uint size ->
  getBufferSize self < size ->
  reserveSpace size self = (Ok tt, self') ->
  Z.max size (to_uint (3 * getBufferSize self) / 2) <= getBufferSize self' /\
  mWritePosition self' = 0 /\
  mReservedSpace self' = mReservedSpace self.
Proof.
  intros U Hlt. rewrite reserveSpace_grow_path by assumption.
  unfold onBase, zoom. run.
  destruct (VertexBufferInterface.setBufferSize _ _) as [[[]|e] i'] eqn:E;
    intros [= <-]; simpl.
  split; [|split; reflexivity].
  unfold getBufferSize; simpl.
  eapply interface_setBufferSize_size; [|exact E].
  pose proof (to_uint_is_uint (3 * getBufferSize self)) as U3.
  unfold is_uint, UINT_MAX, getBufferSize in *.
  assert (0 <= to_uint (3 * VertexBufferInterface.getBufferSize (base self)) / 2
          <= 4294967295)
    by (Z.div_mod_to_equations; lia).
  lia.
Qed.

(** C2, amended. For a requested size [s] above the capacity [c], with
    [3 * c] within the unsigned 32-bit range, a successful [reserveSpace s]
    leaves a capacity of at least [max s (3 * c / 2)], the quotient rounded
    down, and the write cursor at 0. *)
Theorem reserveSpace_grows `{!VertexBufferLaws B} s (self self' : t B) :
  is_uint s ->
  getBufferSize self < s ->
  3 * getBufferSize self <= UINT_MAX ->
  reserveSpace s self = (Ok tt, self') ->
  Z.max s (3 * getBufferSize self / 2) <= getBufferSize self' /\
  mWritePosition self' = 0.
Proof.
  intros U Hlt H3 E.
  destruct (reserveSpace_grow_result s self self' U Hlt E) as (Hcap & Hpos & _).
  split; [|exact Hpos].
  rewrite to_uint_small in Hcap; [exact Hcap|].
  pose proof (size_is_uint (VertexBufferInterface.mVertexBuffer (base self))) as Uc.
  unfold getBufferSize, VertexBufferInterface.getBufferSize, is_uint in *. lia.
Qed.


Lemma onBase_discard_result `{!VertexBufferLaws B} (self : t B) r i' :
  VertexBufferInterface.discard (base self) = (r, i') ->
  r = Ok tt ->
  VertexBufferInterface.getBufferSize i' = getBufferSize self /\
  vbDiscard (VertexBufferInterface.mVertexBuffer (base self)) =
    (Ok tt, VertexBufferInterface.mVertexBuffer i').
Proof.
  unfold VertexBufferInterface.discard, VertexBufferInterface.onBuffer, zoom,
    getBufferSize, VertexBufferInterface.getBufferSize.
  destruct (vbDiscard _) as [r' b'] eqn:E. intros [= <- <-] ->. simpl.
  split; [eapply discard_size; eauto | reflexivity].
Qed.

(** The discard branch, as the code tests for it: the sum is the wrapped
    32-bit sum. *)
Lemma reserveSpace_discard_result `{!VertexBufferLaws B} size (self self' : t B) :
  size <= getBufferSize self ->
  getBufferSize self < to_uint (mWritePosition self + size) ->
  reserveSpace size self = (Ok tt, self') ->
  getBufferSize self' = getBufferSize self /\
  mWritePosition self' = 0 /\
  mReservedSpace self' = mReservedSpace self /\
  vbDiscard (VertexBufferInterface.mVertexBuffer (base self)) =
    (Ok tt, VertexBufferInterface.mVertexBuffer (base self')).
Proof.
  intros Hle Hgt. rewrite reserveSpace_discard_path by assumption.
  unfold onBase, zoom. run.
  destruct (VertexBufferInterface.discard _) as [[[]|e] i'] eqn:E;
    intros [= <-]; simpl.
  destruct (onBase_discard_result self _ _ E eq_refl) as [Hc Hd].
  unfold getBufferSize at 1. simpl. auto.
Qed.

(** The discard path of [reserveSpace] when the sum of cursor and request
    is representable: a successful call discards the buffer, keeps its
    capacity and sets the cursor to 0. *)
Lemma reserveSpace_discards `{!VertexBufferLaws B} s (self self' : t B) :
  0 <= mWritePosition self + s <= UINT_MAX ->
  s <= getBufferSize self ->
  getBufferSize self < mWritePosition self + s ->
  reserveSpace s self = (Ok tt, self') ->
  getBufferSize self' = getBufferSize self /\
  mWritePosition self' = 0 /\
  vbDiscard (VertexBufferInterface.mVertexBuffer (base self)) =
    (Ok tt, VertexBufferInterface.mVertexBuffer (base self')).
Proof.
  intros U Hle Hgt E.
  destruct (reserveSpace_discard_result s self self') as (Hc & Hp & _ & Hd); auto.
  rewrite to_uint_small; [exact Hgt | exact U].
Qed.

(** ** storeDynamicAttribute *)

(** C5. When the write cursor plus the aligned space required does not fit
    an unsigned 32-bit integer, [storeDynamicAttribute] returns the
    overflow error and leaves the interface (cursor, pending reservation
    and buffer) as it found it. *)
Theorem storeDynamicAttribute_overflow args (self : t B) spaceRequired :
  VertexBufferInterface.getSpaceRequired
    (sAttrib args) (sBinding args) (sCount args) (sInstances args) = Ok spaceRequired ->
  UINT_MAX < mWritePosition self + spaceRequired ->
  storeDynamicAttribute args self = (Err writePosition_overflow, self).
Proof.
  intros E Hov. unfold storeDynamicAttribute. run. rewrite E.
  destruct (checked (mWritePosition self)) as [w|] eqn:Ew; simpl; [|reflexivity].
  apply checked_Some in Ew. destruct Ew as [_ ->].
  destruct (checked (mWritePosition self + spaceRequired)) as [w|] eqn:Es;
    [|reflexivity].
  apply checked_Some in Es. unfold is_uint in Es. lia.
Qed.

End Streaming.

(** ** Sequences of stores *)

Section Runs.
Context {B : Type} `{VB : VertexBufferImpl B} `{F : BufferFactoryD3D}.
Import StreamingVertexBufferInterface.
Local Open Scope method_scope.

Lemma keeps_reserveSpace size (self : t B) :
  keeps size self = true -> reserveSpace size self = (Ok tt, self).
Proof.
  unfold keeps. intros K. apply andb_prop in K. destruct K as [K1 K2].
  apply reserveSpace_keep_path.
  - destruct (size >? getBufferSize self) eqn:E; [discriminate | lia].
  - destruct (_ >? getBufferSize self) eqn:E in K2; [discriminate | lia].
Qed.

Lemma getSpaceRequired_is_uint attrib binding count instances v :
  VertexBufferInterface.getSpaceRequired attrib binding count instances = Ok v ->
  is_uint v.
Proof.
  unfold VertexBufferInterface.getSpaceRequired.
  destruct (getVertexSpaceRequired _ _ _ _) as [r|e]; [|discriminate].
  destruct (_ <? _); [discriminate|].
  intros [= <-]. unfold roundUp. apply to_uint_is_uint.
Qed.

(** One store that neither discards nor grows: it writes at the cursor and
    moves the cursor past the aligned size. *)
Lemma storeDynamicAttribute_step args (self self' : t B) offset :
  keeps (mReservedSpace self) self = true ->
  storeDynamicAttribute args self = (Ok offset, self') ->
  offset = mWritePosition self /\
  0 <= alignedSize args /\
  mWritePosition self' = offset + alignedSize args /\
  mReservedSpace self' = 0.
Proof.
  intros K. unfold storeDynamicAttribute, alignedSize. run.
  destruct (VertexBufferInterface.getSpaceRequired _ _ _ _) as [sp|e] eqn:E;
    [|discriminate].
  pose proof (getSpaceRequired_is_uint _ _ _ _ _ E) as Usp.
  destruct (checked (mWritePosition self)) as [w|] eqn:Ew; simpl; [|discriminate].
  apply checked_Some in Ew. destruct Ew as [Uw ->].
  destruct (checked (mWritePosition self + sp)) as [w|] eqn:Es; simpl;
    [|discriminate].
  apply checked_Some in Es. destruct Es as [Us _].
  rewrite (keeps_reserveSpace _ _ K). simpl.
  unfold onBase, zoom. simpl.
  destruct (VertexBufferInterface.onBuffer _ _) as [[[]|e] i'];
    [|discriminate].
  intros [= <- <-]. simpl.
  rewrite to_uint_small by exact Us.
  unfold is_uint in Usp. repeat split; try reflexivity; lia.
Qed.

Lemma storeAll_cons args rest (self self'' : t B) offsets :
  storeAll (args :: rest) self = (Ok offsets, self'') ->
  exists offset self' offsets',
    storeDynamicAttribute args self = (Ok offset, self') /\
    storeAll rest self' = (Ok offsets', self'') /\
    offsets = offset :: offsets'.
Proof.
  simpl. unfold bind at 1.
  destruct (storeDynamicAttribute args self) as [[offset|e] self'] eqn:E1;
    [|discriminate].
  unfold bind at 1.
  destruct (storeAll rest self') as [[offsets'|e] s''] eqn:E2; [|discriminate].
  unfold ret. intros [= <- <-]. eauto 6.
Qed.

(** The first offset of an undisturbed run is the cursor it starts at. *)
Lemma storeAll_first calls (self self' : t B) offset offsets :
  storeAll calls self = (Ok (offset :: offsets), self') ->
  undisturbed calls self ->
  offset = mWritePosition self.
Proof.
  destruct calls as [|args rest]; [discriminate|].
  intros E [K _].
  apply storeAll_cons in E. destruct E as (o & s' & os & E1 & _ & [= -> ->]).
  apply (storeDynamicAttribute_step _ _ _ _ K E1).
Qed.

Lemma storeAll_successive calls : forall (self self' : t B) offsets,
  storeAll calls self = (Ok offsets, self') ->
  undisturbed calls self ->
  increasing_disjoint offsets (map alignedSize calls).
Proof.
  induction calls as [|args rest IH]; intros self self'' offsets E U.
  - injection E as <- _. intros [|i] o s o' Ho; discriminate.
  - destruct U as [K U].
    apply storeAll_cons in E. destruct E as (o1 & self' & os & E1 & E2 & ->).
    rewrite E1 in U. simpl in U.
    destruct (storeDynamicAttribute_step _ _ _ _ K E1) as (Ho1 & Hs & Hw & _).
    intros [|i] o s o' Ho Hsz Ho'; simpl in Ho, Hsz, Ho'.
    + injection Ho as <-. injection Hsz as <-.
      destruct os as [|o2 os']; [discriminate|]. injection Ho' as <-.
      rewrite (storeAll_first _ _ _ _ _ E2 U), Hw. lia.
    + exact (IH _ _ _ E2 U i o s o' Ho Hsz Ho').
Qed.

(** No offset of an undisturbed run lies before the cursor it starts at. *)
Lemma storeAll_lower_bound calls : forall (self self' : t B) offsets,
  storeAll calls self = (Ok offsets, self') ->
  undisturbed calls self ->
  forall j o, nth_error offsets j = Some o -> mWritePosition self <= o.
Proof.
  induction calls as [|args rest IH]; intros self self'' offsets E U j o Ho.
  - injection E as <- _. destruct j; discriminate.
  - destruct U as [K U].
    apply storeAll_cons in E. destruct E as (o1 & self' & os & E1 & E2 & ->).
    rewrite E1 in U. simpl in U.
    destruct (storeDynamicAttribute_step _ _ _ _ K E1) as (Ho1 & Hs & Hw & _).
    destruct j as [|j]; simpl in Ho.
    + injection Ho as <-. lia.
    + pose proof (IH _ _ _ E2 U j o Ho). lia.
Qed.

Lemma storeAll_pairwise calls : forall (self self' : t B) offsets,
  storeAll calls self = (Ok offsets, self') ->
  undisturbed calls self ->
  pairwise_disjoint offsets (map alignedSize calls).
Proof.
  induction calls as [|args rest IH]; intros self self'' offsets E U.
  - injection E as <- _. intros [|i] j o s o' _ Ho; discriminate.
  - destruct U as [K U].
    apply storeAll_cons in E. destruct E as (o1 & self' & os & E1 & E2 & ->).
    rewrite E1 in U. simpl in U.
    destruct (storeDynamicAttribute_step _ _ _ _ K E1) as (Ho1 & Hs & Hw & _).
    intros i j o s o' Hij Ho Hsz Ho'.
    destruct j as [|j]; [lia|]. simpl in Ho'.
    destruct i as [|i]; simpl in Ho, Hsz.
    + injection Ho as <-. injection Hsz as <-.
      pose proof (storeAll_lower_bound _ _ _ _ E2 U j o' Ho'). lia.
    + apply (IH _ _ _ E2 U i j o s o'); auto. lia.
Qed.

Lemma alignedSize_nonneg args : 0 <= alignedSize args.
Proof.
  unfold alignedSize.
  destruct (VertexBufferInterface.getSpaceRequired _ _ _ _) as [v|e] eqn:E; [|lia].
  apply getSpaceRequired_is_uint in E. unfold is_uint in E. lia.
Qed.

Lemma total_nonneg calls : 0 <= total (map alignedSize calls).
Proof.
  induction calls as [|args rest IH]; simpl; [lia|].
  pose proof (alignedSize_nonneg args). lia.
Qed.

Lemma storeDynamicAttribute_capacity `{!VertexBufferLaws B} args
      (self self' : t B) offset :
  keeps (mReservedSpace self) self = true ->
  storeDynamicAttribute args self = (Ok offset, self') ->
  getBufferSize self' = getBufferSize self.
Proof.
  intros K. unfold storeDynamicAttribute. run.
  destruct (VertexBufferInterface.getSpaceRequired _ _ _ _) as [sp|e];
    [|discriminate].
  destruct (checked_add _ _); simpl; [|discriminate].
  rewrite (keeps_reserveSpace _ _ K). simpl.
  unfold onBase, VertexBufferInterface.onBuffer, zoom. simpl.
  destruct (vbStoreVertexAttributes args (mWritePosition self)
              (VertexBufferInterface.mVertexBuffer (base self)))
    as [[[]|e] b'] eqn:E; [|discriminate].
  intros [= <- <-]. unfold getBufferSize, VertexBufferInterface.getBufferSize. simpl.
  eapply store_size; eauto.
Qed.

(** Stores that find the room they need behind the cursor, with nothing
    reserved ahead of them, neither discard nor grow. *)
Lemma storeAll_undisturbed `{!VertexBufferLaws B} calls :
  forall (self self' : t B) offsets,
    storeAll calls self = (Ok offsets, self') ->
    mReservedSpace self = 0 ->
    0 <= mWritePosition self ->
    mWritePosition self + total (map alignedSize calls) <= getBufferSize self ->
    undisturbed calls self.
Proof.
  induction calls as [|args rest IH]; intros self self'' offsets E Hr Hw Hroom;
    simpl; [exact I|].
  simpl in Hroom.
  pose proof (alignedSize_nonneg args) as Hs.
  pose proof (total_nonneg rest) as Ht.
  pose proof (size_is_uint (VertexBufferInterface.mVertexBuffer (base self))) as Uc.
  fold (VertexBufferInterface.getBufferSize (base self)) in Uc.
  fold (getBufferSize self) in Uc. unfold is_uint in Uc.
  assert (K : keeps (mReservedSpace self) self = true).
  { unfold keeps. rewrite Hr, Z.add_0_r.
    rewrite to_uint_small by (unfold is_uint; lia).
    apply andb_true_intro. split; apply negb_true_iff; lia. }
  split; [exact K|].
  apply storeAll_cons in E. destruct E as (o1 & self' & os & E1 & E2 & ->).
  rewrite E1. simpl.
  destruct (storeDynamicAttribute_step _ _ _ _ K E1) as (Ho1 & _ & Hw' & Hr').
  pose proof (storeDynamicAttribute_capacity _ _ _ _ K E1) as Hc.
  apply (IH _ _ _ E2 Hr'); rewrite ?Hw', ?Hc, ?Ho1; lia.
Qed.

(** C1, amended. In a sequence of successful [storeDynamicAttribute] calls
    on one interface whose aligned sizes sum to less than the capacity,
    with no discard or grow in between, each returned offset plus the
    aligned size of its call is at most the next offset, and at most the
    offset of every later call: the ranges do not overlap and the offsets
    never decrease, and an offset is strictly below the next one whenever
    its call has a nonzero aligned size. *)
Theorem storeDynamicAttribute_offsets calls (self self' : t B) offsets :
  storeAll calls self = (Ok offsets, self') ->
  undisturbed calls self ->
  total (map alignedSize calls) < getBufferSize self ->
  increasing_disjoint offsets (map alignedSize calls) /\
  pairwise_disjoint offsets (map alignedSize calls).
Proof.
  intros E U _. split.
  - exact (storeAll_successive calls self self' offsets E U).
  - exact (storeAll_pairwise calls self self' offsets E U).
Qed.

End Runs.

(** ** Serials *)

Lemma assign_next a next :
  snd (VertexBuffer.assign a next) = to_uint (next + 1).
Proof. destruct a; reflexivity. Qed.

Lemma assign_serial a next :
  VertexBuffer.getSerial (fst (VertexBuffer.assign a next)) = next.
Proof. destruct a; reflexivity. Qed.

(** After [k] assignments, by whichever of the constructor and
    [updateSerial], the static counter is [1 + k] modulo 2^32. *)
Lemma afterAssignments_closed history k :
  VertexBuffer.afterAssignments history k = (k, to_uint (1 + Z.of_N k)).
Proof.
  unfold VertexBuffer.afterAssignments.
  induction k as [|k IH] using N.peano_ind.
  - reflexivity.
  - rewrite N.iter_succ, IH. cbn [fst snd].
    rewrite assign_next, N2Z.inj_succ. f_equal.
    unfold to_uint. rewrite Z.add_mod_idemp_l by lia. f_equal. lia.
Qed.

(** Assignment [k] of a process hands out [1 + k] modulo 2^32. *)
Lemma serialAssigned_closed history k :
  VertexBuffer.serialAssigned history k = to_uint (1 + Z.of_N k).
Proof.
  unfold VertexBuffer.serialAssigned.
  rewrite assign_serial, afterAssignments_closed. reflexivity.
Qed.

(** C9, amended. Two serial assignments of one process, each made by the
    construction of a buffer or by [updateSerial] on a buffer that exists,
    with fewer than 2^32 assignments from the one to the other, hand out
    different serials: so do two constructions that close together. *)
Theorem serials_distinct_within_a_cycle history (i j : N) :
  i <> j ->
  Z.abs (Z.of_N i - Z.of_N j) < 4294967296 ->
  VertexBuffer.serialAssigned history i <> VertexBuffer.serialAssigned history j.
Proof.
  intros Hne Hd. rewrite !serialAssigned_closed. unfold to_uint. intros E.
  assert (Z.of_N i <> Z.of_N j) by (intros Q; apply N2Z.inj in Q; auto).
  Z.div_mod_to_equations. lia.
Qed.

(** ** The code on the simulated buffer *)

Section OnSim.
Import StreamingVertexBufferInterface.
#[local] Existing Instances Sim.buffer Sim.factory.

Lemma getSpaceRequired_smallest_multiple_witness :
  exists v,
    smallest_multiple_of_16 100 v /\
    (v <= UINT_MAX ->
     VertexBufferInterface.getSpaceRequired (Sim.bytes 1) (Sim.binding 1 0) 100 0 = Ok v) /\
    (UINT_MAX < v ->
     VertexBufferInterface.getSpaceRequired (Sim.bytes 1) (Sim.binding 1 0) 100 0 =
       Err getSpaceRequired_overflow) /\
    (forall v',
        VertexBufferInterface.getSpaceRequired (Sim.bytes 1) (Sim.binding 1 0) 100 0 = Ok v' ->
        v' = v).
Proof.
  apply (@getSpaceRequired_smallest_multiple Sim.factory Sim_factory_laws
           (Sim.bytes 1) (Sim.binding 1 0) 100 0 100).
  reflexivity.
Defined.

Lemma storeDynamicAttribute_overflow_witness :
  storeDynamicAttribute (Sim.store 4294967280) (arena 1024 16 0)
  = (Err writePosition_overflow, arena 1024 16 0).
Proof.
  apply (storeDynamicAttribute_overflow (Sim.store 4294967280) (arena 1024 16 0)
           4294967280).
  - vm_compute. reflexivity.
  - vm_compute. reflexivity.
Defined.

(** C2 fails on the code: from a capacity of 3 bytes, [reserveSpace 4]
    grows the buffer to [max 4 (3 * 3 / 2)], which is 4 bytes and less
    than one and a half times 3. *)
Lemma reserveSpace_grows_less_than_half :
  ~ grows_by_half_statement 4 (arena 3 0 0).
Proof.
  unfold grows_by_half_statement. intros Hc.
  assert (Hlt : getBufferSize (arena 3 0 0) < 4) by (vm_compute; reflexivity).
  destruct (Hc Hlt (snd (reserveSpace 4 (arena 3 0 0)))) as (_ & Hhalf & _).
  - vm_compute. reflexivity.
  - vm_compute in Hhalf. apply Hhalf. reflexivity.
Qed.

Lemma reserveSpace_grows_witness :
  let self := arena 1024 320 0 in
  let self' := snd (reserveSpace 2000 self) in
  Z.max 2000 (3 * getBufferSize self / 2) <= getBufferSize self' /\
  mWritePosition self' = 0.
Proof.
  apply (@reserveSpace_grows Sim.Buffer Sim.buffer Sim_buffer_laws 2000
           (arena 1024 320 0) (snd (reserveSpace 2000 (arena 1024 320 0)))).
  - unfold is_uint, UINT_MAX. lia.
  - vm_compute. reflexivity.
  - vm_compute. discriminate.
  - vm_compute. reflexivity.
Defined.

(** C3 on the code, where the sum of cursor and request passes 2^32: with
    a capacity of 3 GiB, the cursor at 2 GiB and a request of 2 GiB + 16,
    the request fits the capacity and cursor plus request exceeds it, but
    the 32-bit sum the code compares is 16: [reserveSpace] neither
    discards nor resets the cursor. *)
Theorem reserveSpace_wrapped_sum_keeps_cursor :
  let self := arena 3221225472 2147483648 0 in
  getBufferSize self < mWritePosition self + 2147483664 /\
  2147483664 <= getBufferSize self /\
  reserveSpace 2147483664 self = (Ok tt, self) /\
  ~ discards_statement 2147483664 self.
Proof.
  cbv zeta.
  assert (E : reserveSpace 2147483664 (arena 3221225472 2147483648 0)
              = (Ok tt, arena 3221225472 2147483648 0))
    by (vm_compute; reflexivity).
  split; [vm_compute; reflexivity|].
  split; [vm_compute; discriminate|].
  split; [exact E|].
  intros Hc.
  destruct (Hc ltac:(vm_compute; reflexivity) ltac:(vm_compute; discriminate) _ E)
    as [_ Hpos].
  vm_compute in Hpos. discriminate.
Qed.

(** The product [3 * curBufferSize] wraps as well: from 2 GiB, a request of
    one byte more is all the buffer grows to. *)
Lemma reserveSpace_grow_wrapped_product :
  let self := arena 2147483648 0 0 in
  getBufferSize (snd (reserveSpace 2147483649 self)) = 2147483649.
Proof. vm_compute. reflexivity. Qed.

(** C1 fails on the code: two stores of no vertices both return offset 0. *)
Lemma empty_stores_repeat_an_offset :
  ~ strictly_increasing_statement [Sim.store 0; Sim.store 0] (arena 1024 0 0).
Proof.
  unfold strictly_increasing_statement. intros Hc.
  specialize (Hc [0; 0] (snd (storeAll [Sim.store 0; Sim.store 0] (arena 1024 0 0)))).
  assert (S : strictly_increasing_disjoint [0; 0]
                (map alignedSize [Sim.store 0; Sim.store 0])).
  { apply Hc.
    - vm_compute. reflexivity.
    - vm_compute. auto.
    - vm_compute. reflexivity. }
  destruct (S 0%nat 0 0 0 eq_refl eq_refl eq_refl) as [Hlt _]. lia.
Qed.

Lemma storeDynamicAttribute_offsets_witness :
  increasing_disjoint [0; 112; 320]
    (map alignedSize [Sim.store 100; Sim.store 200; Sim.store 300]) /\
  pairwise_disjoint [0; 112; 320]
    (map alignedSize [Sim.store 100; Sim.store 200; Sim.store 300]).
Proof.
  apply (storeDynamicAttribute_offsets
           [Sim.store 100; Sim.store 200; Sim.store 300] (arena 1024 0 0)
           (snd (storeAll [Sim.store 100; Sim.store 200; Sim.store 300]
                   (arena 1024 0 0)))).
  - vm_compute. reflexivity.
  - vm_compute. auto.
  - vm_compute. reflexivity.
Defined.

End OnSim.

(** ** The end-to-end scenario *)

Section ScenarioFacts.
Import StreamingVertexBufferInterface.
#[local] Existing Instances Sim.buffer Sim.factory.

(** The state of [reserveSpace_wrapped_sum_keeps_cursor] arises from calls
    of the public methods: the two attributes reserved together would fit
    the buffer after a discard; without it the second of them cannot be
    stored. *)
Lemma wrapped_reservation_fails :
  wrapped_reservation scenario_start
  = (Err writePosition_overflow,
     mk (VertexBufferInterface.mk
           (Sim.mk 3221225472 UINT_MAX
              [Sim.Initialize 3221225472 true;
               Sim.StoreVertexAttributes 0 2147483648;
               Sim.StoreVertexAttributes 2147483648 1073741824]) true)
        3221225472 0).
Proof. vm_compute. reflexivity. Qed.

(** C8 fails on the code: the only resize the buffer of the scenario ever
    accepts is its initialization with 1024 bytes. *)
Lemma scenario_never_grows : ~ scenario_grows_statement.
Proof.
  unfold scenario_grows_statement. intros (n & m & rest & E).
  vm_compute in E. discriminate.
Qed.

(** C8, amended. On an arena initialized with 1024 bytes, the attributes of
    100 and 200 bytes, each reserved and then stored, go to offsets 0 and
    112 and leave the cursor at 320.  The reservation for the 800 bytes of
    the third fits the capacity but not the room behind the cursor:
    [reserveSpace] discards the buffer, which keeps its 1024 bytes, and
    sets the cursor to 0; the third store returns offset 0. *)
Theorem scenario_discards_before_third_store :
  let first_two :=
    [Sim.Initialize 1024 true;
     Sim.StoreVertexAttributes 0 100;
     Sim.StoreVertexAttributes 112 200] in
  scenario_first_two scenario_start = (Ok [0; 112], arena_after first_two 320 0) /\
  reserveVertexSpace (Sim.bytes 1) (Sim.binding 1 0) 800 0 (arena_after first_two 320 0)
  = (Ok tt, arena_after first_two 320 800) /\
  reserveSpace 800 (arena_after first_two 320 800)
  = (Ok tt, arena_after (first_two ++ [Sim.Discard]) 0 800) /\
  scenario scenario_start
  = (Ok [0; 112; 0],
     arena_after (first_two ++ [Sim.Discard; Sim.StoreVertexAttributes 0 800]) 800 0).
Proof.
  cbv zeta.
  split; [vm_compute; reflexivity|].
  split; [vm_compute; reflexivity|].
  split; vm_compute; reflexivity.
Qed.

End ScenarioFacts.

(** ** The static signature *)

Section Signature.
Context `{L : VertexAttributeLayout}.

(** What makes [AttributeSignature::matchesAttribute] answer true. *)
Lemma signature_matches_intro (sig : AttributeSignature.t) attrib binding :
  AttributeSignature.type sig = VertexAttribute.type attrib ->
  AttributeSignature.size sig = VertexAttribute.size attrib ->
  to_uint (AttributeSignature.stride sig) = strideOf attrib binding ->
  AttributeSignature.normalized sig = VertexAttribute.normalized attrib ->
  AttributeSignature.pureInteger sig = VertexAttribute.pureInteger attrib ->
  offsetOf attrib binding mod strideOf attrib binding = AttributeSignature.offset sig ->
  AttributeSignature.matchesAttribute sig attrib binding = true.
Proof.
  unfold AttributeSignature.matchesAttribute, strideOf, offsetOf.
  intros -> -> -> -> -> <-.
  rewrite !Z.eqb_refl, !Bool.eqb_reflx. reflexivity.
Qed.

(** With a stride that is not zero [Partial.matchesAttribute] has a result,
    the one of [AttributeSignature.matchesAttribute]. *)
Lemma Partial_matchesAttribute_defined (sig : AttributeSignature.t) attrib binding :
  strideOf attrib binding <> 0 ->
  Partial.matchesAttribute sig attrib binding
  = Some (AttributeSignature.matchesAttribute sig attrib binding).
Proof.
  unfold strideOf, Partial.matchesAttribute, AttributeSignature.matchesAttribute,
    Partial.remainder.
  intros Hst.
  destruct (_ || _); [reflexivity|].
  destruct (Z.eqb_spec (to_size_t (ComputeVertexAttributeStride attrib binding)) 0);
    [contradiction | reflexivity].
Qed.

(** A result of [Partial.matchesAttribute] is the one of
    [AttributeSignature.matchesAttribute]. *)
Lemma Partial_matchesAttribute_result (sig : AttributeSignature.t) attrib binding r :
  Partial.matchesAttribute sig attrib binding = Some r ->
  AttributeSignature.matchesAttribute sig attrib binding = r.
Proof.
  unfold Partial.matchesAttribute, AttributeSignature.matchesAttribute,
    Partial.remainder.
  destruct (_ || _); [intros [= <-]; reflexivity|].
  destruct (_ =? 0); [discriminate|]. intros [= <-]. reflexivity.
Qed.

(** C6, amended. For a descriptor whose computed stride is not zero,
    [StaticVertexBufferInterface::matchesAttribute] returns, and returns
    true exactly when the descriptor's component type, component count,
    computed stride, normalization flag and integer flag equal the cached
    ones and the descriptor's computed byte offset modulo its computed
    stride equals the cached offset. *)
Theorem matchesAttribute_iff {B : Type} (self : StaticVertexBufferInterface.t B)
        attrib binding :
  strideOf attrib binding <> 0 ->
  exists answer,
    Partial.static_matchesAttribute self attrib binding = Some answer /\
    (answer = true <->
     signature_agrees (StaticVertexBufferInterface.mSignature self) attrib binding).
Proof.
  intros Hst.
  set (sig := StaticVertexBufferInterface.mSignature self).
  exists (AttributeSignature.matchesAttribute sig attrib binding).
  split; [exact (Partial_matchesAttribute_defined sig attrib binding Hst)|].
  unfold signature_agrees, AttributeSignature.matchesAttribute, strideOf, offsetOf.
  destruct (Z.eqb_spec (AttributeSignature.type sig) (VertexAttribute.type attrib));
    simpl; [|split; [discriminate | tauto]].
  destruct (Z.eqb_spec (AttributeSignature.size sig) (VertexAttribute.size attrib));
    simpl; [|split; [discriminate | tauto]].
  destruct (Z.eqb_spec (to_uint (AttributeSignature.stride sig))
              (to_size_t (ComputeVertexAttributeStride attrib binding)));
    simpl; [|split; [discriminate | tauto]].
  destruct (Bool.eqb_spec (AttributeSignature.normalized sig)
              (VertexAttribute.normalized attrib));
    simpl; [|split; [discriminate | tauto]].
  destruct (Bool.eqb_spec (AttributeSignature.pureInteger sig)
              (VertexAttribute.pureInteger attrib));
    simpl; [|split; [discriminate | tauto]].
  rewrite Z.eqb_eq. intuition congruence.
Qed.

(** A signature set from [d] matches every [d'] of the same format and
    stride whose offset is a whole number of strides away. *)
Lemma set_matches attrib binding attrib' binding' k :
  same_format attrib attrib' ->
  strideOf attrib' binding' = strideOf attrib binding ->
  0 < strideOf attrib binding <= UINT_MAX ->
  offsetOf attrib' binding' = offsetOf attrib binding + k * strideOf attrib binding ->
  AttributeSignature.matchesAttribute
    (AttributeSignature.set attrib binding) attrib' binding' = true.
Proof.
  intros (Ht & Hs & Hn & Hp) Hst Hr Hoff.
  apply signature_matches_intro; unfold AttributeSignature.set; simpl;
    fold (strideOf attrib binding) (offsetOf attrib binding); auto.
  - rewrite Hst, to_uint_small by apply to_uint_is_uint.
    apply to_uint_small. unfold is_uint. lia.
  - rewrite Hst, Hoff. apply Z.mod_add. lia.
Qed.

End Signature.

(** ** storeStaticAttribute *)

Section Static.
Context {B : Type} `{VB : VertexBufferImpl B} `{F : BufferFactoryD3D}
        `{L : VertexAttributeLayout}.
Import StaticVertexBufferInterface.

(** The call step by step: the signature is the old one unless every step
    succeeded, the store at offset 0 among them. *)
Lemma storeStaticAttribute_cases attrib binding start count instances sourceData
      (self self' : t B) r :
  storeStaticAttribute attrib binding start count instances sourceData self
  = (r, self') ->
  (exists e, r = Err e /\ mSignature self' = mSignature self) \/
  (r = Ok tt /\
   mSignature self' = AttributeSignature.set attrib binding /\
   exists spaceRequired resized stored,
     VertexBufferInterface.getSpaceRequired attrib binding (to_size_t count) instances
     = Ok spaceRequired /\
     VertexBufferInterface.setBufferSize spaceRequired (base self) = (Ok tt, resized) /\
     vbStoreVertexAttributes
       (mkStoreArgs attrib binding GL_NONE start count instances sourceData) 0
       (VertexBufferInterface.mVertexBuffer resized) = (Ok tt, stored) /\
     VertexBufferInterface.mVertexBuffer (base self') = vbHintUnmapResource stored).
Proof.
  unfold storeStaticAttribute. run.
  destruct (VertexBufferInterface.getSpaceRequired _ _ _ _) as [sp|e] eqn:E1.
  2:{ intros [= <- <-]. left. eauto. }
  unfold onBase at 1, zoom at 1.
  destruct (VertexBufferInterface.setBufferSize sp (base self)) as [[[]|e] i1] eqn:E2.
  2:{ intros [= <- <-]. left. eauto. }
  unfold onBase at 1, zoom at 1, VertexBufferInterface.onBuffer at 1, zoom at 1.
  simpl.
  destruct (vbStoreVertexAttributes _ 0 (VertexBufferInterface.mVertexBuffer i1))
    as [[[]|e] b2] eqn:E3.
  2:{ simpl. intros [= <- <-]. left. eauto. }
  simpl. intros [= <- <-]. right. simpl. eauto 10.
Qed.

Lemma setAttribute_signature attrib binding (self self' : t B) r :
  setAttribute attrib binding self = (r, self') ->
  r = Ok tt /\ mSignature self' = AttributeSignature.set attrib binding.
Proof. unfold setAttribute, modify. intros [= <- <-]. auto. Qed.

(** With a stride that is not zero [Partial.set] has a result, the signature
    of [AttributeSignature.set]. *)
Lemma Partial_set_defined attrib binding :
  strideOf attrib binding <> 0 ->
  Partial.set attrib binding = Some (AttributeSignature.set attrib binding).
Proof.
  unfold strideOf, Partial.set, AttributeSignature.set, Partial.remainder.
  intros Hst.
  destruct (Z.eqb_spec (to_size_t (ComputeVertexAttributeStride attrib binding)) 0);
    [contradiction | reflexivity].
Qed.

(** An interface whose signature was set from [d] returns true for every
    [d'] of the same format and stride a whole number of strides away. *)
Lemma set_signature_matches attrib binding attrib' binding' k (self' : t B) :
  same_format attrib attrib' ->
  strideOf attrib' binding' = strideOf attrib binding ->
  0 < strideOf attrib binding <= UINT_MAX ->
  offsetOf attrib' binding' = offsetOf attrib binding + k * strideOf attrib binding ->
  mSignature self' = AttributeSignature.set attrib binding ->
  Partial.static_matchesAttribute self' attrib' binding' = Some true.
Proof.
  intros Hf Hst Hr Hoff Hsig. unfold Partial.static_matchesAttribute.
  rewrite Partial_matchesAttribute_defined by (rewrite Hst; lia).
  rewrite Hsig. f_equal. exact (set_matches _ _ _ _ k Hf Hst Hr Hoff).
Qed.

(** C7, amended. Let [d] be a descriptor whose stride is not zero and fits
    the GLuint the signature stores it in.  After a successful
    [storeStaticAttribute] with [d], and after [setAttribute] with [d],
    which always succeeds, [matchesAttribute] returns true for every
    descriptor [d'] that differs from [d] only in its byte offset, by a whole
    multiple of the stride, and so for [d] itself. *)
Theorem static_signature_round_trip
        attrib binding attrib' binding' k start count instances sourceData
        (self : t B) :
  same_format attrib attrib' ->
  strideOf attrib' binding' = strideOf attrib binding ->
  0 < strideOf attrib binding <= UINT_MAX ->
  offsetOf attrib' binding' = offsetOf attrib binding + k * strideOf attrib binding ->
  (forall self',
      storeStaticAttribute attrib binding start count instances sourceData self
      = (Ok tt, self') ->
      Partial.static_matchesAttribute self' attrib' binding' = Some true /\
      Partial.static_matchesAttribute self' attrib binding = Some true) /\
  (fst (setAttribute attrib binding self) = Ok tt /\
   Partial.static_matchesAttribute (snd (setAttribute attrib binding self))
     attrib' binding' = Some true /\
   Partial.static_matchesAttribute (snd (setAttribute attrib binding self))
     attrib binding = Some true).
Proof.
  intros Hf Hst Hr Hoff.
  assert (Hself : same_format attrib attrib) by (unfold same_format; auto).
  assert (H0 : offsetOf attrib binding
               = offsetOf attrib binding + 0 * strideOf attrib binding) by lia.
  split.
  - intros self' E.
    assert (Hsig : mSignature self' = AttributeSignature.set attrib binding).
    { destruct (storeStaticAttribute_cases _ _ _ _ _ _ _ _ _ E)
        as [(e & He & _) | (_ & Hs & _)]; [discriminate | exact Hs]. }
    split.
    + exact (set_signature_matches _ _ _ _ k self' Hf Hst Hr Hoff Hsig).
    + exact (set_signature_matches _ _ _ _ 0 self' Hself eq_refl Hr H0 Hsig).
  - destruct (setAttribute attrib binding self) as [r self'] eqn:E.
    destruct (setAttribute_signature _ _ _ _ _ E) as [-> Hsig]. cbn [fst snd].
    split; [reflexivity|]. split.
    + exact (set_signature_matches _ _ _ _ k self' Hf Hst Hr Hoff Hsig).
    + exact (set_signature_matches _ _ _ _ 0 self' Hself eq_refl Hr H0 Hsig).
Qed.

(** C10. A [storeStaticAttribute] that fails, at whichever step, leaves the
    cached signature as it was, so that [matchesAttribute] answers as
    before; a call that changes the signature has stored the data at
    offset 0 successfully first. *)
Theorem storeStaticAttribute_failure_keeps_signature
        attrib binding start count instances sourceData (self self' : t B) r :
  storeStaticAttribute attrib binding start count instances sourceData self
  = (r, self') ->
  (forall e, r = Err e ->
     mSignature self' = mSignature self /\
     forall attrib' binding',
       matchesAttribute self' attrib' binding' = matchesAttribute self attrib' binding') /\
  (mSignature self' <> mSignature self ->
   exists spaceRequired resized stored,
     VertexBufferInterface.getSpaceRequired attrib binding (to_size_t count) instances
     = Ok spaceRequired /\
     VertexBufferInterface.setBufferSize spaceRequired (base self) = (Ok tt, resized) /\
     vbStoreVertexAttributes
       (mkStoreArgs attrib binding GL_NONE start count instances sourceData) 0
       (VertexBufferInterface.mVertexBuffer resized) = (Ok tt, stored) /\
     r = Ok tt /\
     mSignature self' = AttributeSignature.set attrib binding).
Proof.
  intros E.
  destruct (storeStaticAttribute_cases _ _ _ _ _ _ _ _ _ E)
    as [(e & -> & Hs) | (-> & Hs & sp & i1 & b2 & Hsp & Hsz & Hstore & _)].
  - split.
    + intros _ _. split; [exact Hs|]. intros a' b'.
      unfold matchesAttribute. rewrite Hs. reflexivity.
    + intros Hne. contradiction.
  - split.
    + intros e [=].
    + intros _. exists sp, i1, b2. auto.
Qed.

End Static.

(** ** The static interface on the simulated buffer *)

Section StaticOnSim.
Import StaticVertexBufferInterface.
#[local] Existing Instances Sim.buffer Sim.factory Sim.layout.

(** Stride 12, offsets 0 and 36. *)
Lemma static_signature_round_trip_witness :
  let fresh := construct (Sim.fresh UINT_MAX) in
  let stored := snd (storeStaticAttribute (Sim.bytes 3) (Sim.binding 12 0) 0 10 0 []
                       fresh) in
  let set := snd (setAttribute (Sim.bytes 3) (Sim.binding 12 0) fresh) in
  (Partial.static_matchesAttribute stored (Sim.bytes 3) (Sim.binding 12 36) = Some true /\
   Partial.static_matchesAttribute stored (Sim.bytes 3) (Sim.binding 12 0) = Some true) /\
  (fst (setAttribute (Sim.bytes 3) (Sim.binding 12 0) fresh) = Ok tt /\
   Partial.static_matchesAttribute set (Sim.bytes 3) (Sim.binding 12 36) = Some true /\
   Partial.static_matchesAttribute set (Sim.bytes 3) (Sim.binding 12 0) = Some true).
Proof.
  cbv zeta.
  destruct (static_signature_round_trip
              (Sim.bytes 3) (Sim.binding 12 0) (Sim.bytes 3) (Sim.binding 12 36) 3
              0 10 0 [] (construct (Sim.fresh UINT_MAX))) as [Hstore Hset].
  - unfold same_format. simpl. auto.
  - reflexivity.
  - vm_compute. split; [reflexivity | discriminate].
  - vm_compute. reflexivity.
  - split; [|exact Hset]. apply Hstore. vm_compute. reflexivity.
Defined.

(** C7 fails on the code: with a stride of 2^32 + 12 the store succeeds and
    caches the stride 12 that the cast to GLuint leaves, which the
    descriptor stored does not match. *)
Lemma wide_stride_is_not_matched :
  ~ round_trip_statement (Sim.bytes 3) (Sim.binding 4294967308 0) 0 10 0 []
      (construct (Sim.fresh UINT_MAX)).
Proof.
  unfold round_trip_statement. intros Hc.
  assert (E : Partial.static_matchesAttribute
                (snd (storeStaticAttribute (Sim.bytes 3) (Sim.binding 4294967308 0)
                        0 10 0 [] (construct (Sim.fresh UINT_MAX))))
                (Sim.bytes 3) (Sim.binding 4294967308 0) = Some true).
  { apply (Hc ltac:(vm_compute; discriminate)
              (Sim.bytes 3) (Sim.binding 4294967308 0) 0).
    - unfold same_format. auto.
    - reflexivity.
    - vm_compute. reflexivity.
    - left. vm_compute. reflexivity. }
  vm_compute in E. discriminate.
Qed.

(** C6 fails on the code: on an interface that has stored nothing, the
    descriptor with no type, no component and a stride of zero passes the
    five comparisons, and the remainder by its stride has no result. *)
Lemma matchesAttribute_undefined_at_zero_stride :
  ~ matches_statement (construct (Sim.fresh UINT_MAX)) no_attribute (Sim.binding 0 0).
Proof.
  unfold matches_statement. intros (answer & E & _).
  vm_compute in E. discriminate.
Qed.

Lemma matchesAttribute_iff_witness :
  let self := snd (setAttribute (Sim.bytes 3) (Sim.binding 12 4)
                     (construct (Sim.fresh UINT_MAX))) in
  exists answer,
    Partial.static_matchesAttribute self (Sim.bytes 3) (Sim.binding 12 40) = Some answer /\
    (answer = true <->
     signature_agrees (mSignature self) (Sim.bytes 3) (Sim.binding 12 40)).
Proof.
  apply (matchesAttribute_iff
           (snd (setAttribute (Sim.bytes 3) (Sim.binding 12 4)
                   (construct (Sim.fresh UINT_MAX))))
           (Sim.bytes 3) (Sim.binding 12 40)).
  vm_compute. discriminate.
Defined.

(** A store of 4294967295 bytes, which no multiple of 16 holds. *)
Lemma storeStaticAttribute_failure_keeps_signature_witness :
  let self := set_mSignature (AttributeSignature.set (Sim.bytes 3) (Sim.binding 12 0))
                (construct (Sim.fresh UINT_MAX)) in
  let call := storeStaticAttribute (Sim.bytes 1) (Sim.binding 1 0) 0 4294967295 0 [] in
  (forall e, fst (call self) = Err e ->
     mSignature (snd (call self)) = mSignature self /\
     forall attrib' binding',
       matchesAttribute (snd (call self)) attrib' binding'
       = matchesAttribute self attrib' binding') /\
  (mSignature (snd (call self)) <> mSignature self ->
   exists spaceRequired resized stored,
     VertexBufferInterface.getSpaceRequired
       (Sim.bytes 1) (Sim.binding 1 0) (to_size_t 4294967295) 0 = Ok spaceRequired /\
     VertexBufferInterface.setBufferSize spaceRequired (base self) = (Ok tt, resized) /\
     vbStoreVertexAttributes
       (mkStoreArgs (Sim.bytes 1) (Sim.binding 1 0) GL_NONE 0 4294967295 0 []) 0
       (VertexBufferInterface.mVertexBuffer resized) = (Ok tt, stored) /\
     fst (call self) = Ok tt /\
     mSignature (snd (call self)) = AttributeSignature.set (Sim.bytes 1) (Sim.binding 1 0)).
Proof.
  cbv zeta.
  apply (storeStaticAttribute_failure_keeps_signature
           (Sim.bytes 1) (Sim.binding 1 0) 0 4294967295 0 []).
  vm_compute. reflexivity.
Defined.

End StaticOnSim.

(** ** Serials across a wrap of the counter *)

(** C9 fails on the code: in a process that only constructs buffers, the
    buffer constructed after 2^32 others receives serial 1, as the first
    buffer of the process did. *)
Lemma serial_reused_after_wrap :
  ~ unique_serials_statement constructions 0 4294967296.
Proof.
  unfold unique_serials_statement. intros Hc.
  apply Hc; [reflexivity | reflexivity | discriminate |].
  rewrite !serialAssigned_closed. reflexivity.
Qed.

(** A process that constructs a buffer and calls [updateSerial] on it, in
    turns. *)
Lemma serials_distinct_within_a_cycle_witness :
  let history := fun k => if N.even k then VertexBuffer.Constructed
                          else VertexBuffer.Updated (VertexBuffer.mk 1 0) in
  VertexBuffer.serialAssigned history 0 <> VertexBuffer.serialAssigned history 4294967295.
Proof.
  apply (serials_distinct_within_a_cycle
           (fun k => if N.even k then VertexBuffer.Constructed
                     else VertexBuffer.Updated (VertexBuffer.mk 1 0))
           0 4294967295).
  - discriminate.
  - vm_compute. reflexivity.
Defined.

(** * Further properties of the code *)

(** ** reserveVertexSpace *)

Lemma CheckedRoundUp_Some r v :
  CheckedRoundUp r 16 = Some v ->
  is_uint r /\ r <= 4294967279 /\ v = roundUp r 16.
Proof.
  unfold CheckedRoundUp, checked_add.
  destruct (checked r) as [x|] eqn:E0; [|discriminate].
  apply checked_Some in E0. destruct E0 as [U ->].
  destruct (checked (r + 16)) as [y|] eqn:E1; [|discriminate].
  apply checked_Some in E1. destruct E1 as [U1 ->].
  destruct (checked (r + 16 + -1)) as [z|] eqn:E2; [|discriminate].
  apply checked_Some in E2. destruct E2 as [U2 ->].
  intros E3. apply checked_Some in E3. destruct E3 as [_ ->].
  unfold is_uint, UINT_MAX in *.
  split; [lia|]. split; [lia|].
  destruct (roundUp_fits r) as [-> _]; [lia|].
  replace (r + 16 + -1) with (r + 15) by lia.
  pose proof (Z.div_mod (r + 15) 16). lia.
Qed.

Section StreamingEffects.
Context {B : Type} `{VB : VertexBufferImpl B} `{F : BufferFactoryD3D}.
Import StreamingVertexBufferInterface.
Local Open Scope method_scope.

(** The space [getSpaceRequired] computes where [CheckedRoundUp] is valid. *)
Lemma getSpaceRequired_of_checked attrib binding count instances r v :
  getVertexSpaceRequired attrib binding count instances = Ok r ->
  CheckedRoundUp r 16 = Some v ->
  VertexBufferInterface.getSpaceRequired attrib binding count instances = Ok v.
Proof.
  intros E C. apply CheckedRoundUp_Some in C. destruct C as (U & Hr & ->).
  unfold VertexBufferInterface.getSpaceRequired. rewrite E.
  unfold is_uint in U.
  destruct (roundUp_fits r) as [_ (_ & Hle & _)]; [lia|].
  destruct (roundUp r 16 <? r) eqn:C; [lia | reflexivity].
Qed.

(** X1. A [reserveVertexSpace] that succeeds adds to the pending reservation
    the aligned size that [getSpaceRequired] computes for the same attribute,
    the sum being an unsigned 32-bit integer, and changes nothing else; one
    that fails leaves the interface as it was. *)
Theorem reserveVertexSpace_effect attrib binding count instances (self self' : t B) r :
  reserveVertexSpace attrib binding count instances self = (r, self') ->
  match r with
  | Ok _ =>
      exists v,
        VertexBufferInterface.getSpaceRequired attrib binding count instances = Ok v /\
        is_uint (v + mReservedSpace self) /\
        self' = set_mReservedSpace (v + mReservedSpace self) self
  | Err _ => self' = self
  end.
Proof.
  unfold reserveVertexSpace. run.
  destruct (getVertexSpaceRequired attrib binding count instances) as [req|e] eqn:E.
  2:{ intros [= <- <-]. reflexivity. }
  destruct (CheckedRoundUp req 16) as [v|] eqn:C; simpl.
  2:{ intros [= <- <-]. reflexivity. }
  destruct (checked (v + mReservedSpace self)) as [w|] eqn:S.
  2:{ intros [= <- <-]. reflexivity. }
  apply checked_Some in S. destruct S as [U ->].
  intros [= <- <-]. exists v.
  split; [exact (getSpaceRequired_of_checked _ _ _ _ _ _ E C)|]. auto.
Qed.

(** ** reserveSpace, whatever its result *)

(** [reserveSpace] never touches the pending reservation, and the cursor is
    the old one unless the call succeeded and reset it. *)
Lemma reserveSpace_frame size (self mid : t B) r :
  reserveSpace size self = (r, mid) ->
  mReservedSpace mid = mReservedSpace self /\
  (mWritePosition mid = mWritePosition self \/ r = Ok tt /\ mWritePosition mid = 0).
Proof.
  unfold reserveSpace. run.
  destruct (size >? getBufferSize self).
  - unfold onBase, zoom.
    destruct (VertexBufferInterface.setBufferSize _ _) as [[[]|e] i']; simpl;
      intros [= <- <-]; simpl; auto.
  - destruct (to_uint (mWritePosition self + size) >? getBufferSize self).
    + unfold onBase, zoom.
      destruct (VertexBufferInterface.discard _) as [[[]|e] i']; simpl;
        intros [= <- <-]; simpl; auto.
    + intros [= <- <-]. auto.
Qed.

(** X2. A [reserveSpace] that fails, in the resize or in the discard, leaves
    the write cursor and the pending reservation as they were. *)
Theorem reserveSpace_failure_keeps_cursor size (self self' : t B) e :
  reserveSpace size self = (Err e, self') ->
  mWritePosition self' = mWritePosition self /\
  mReservedSpace self' = mReservedSpace self.
Proof.
  intros E. destruct (reserveSpace_frame _ _ _ _ E) as [Hr [Hw | [Hok _]]].
  - auto.
  - discriminate.
Qed.

(** Room behind the cursor after a successful [reserveSpace]. *)
Lemma reserveSpace_room `{!VertexBufferLaws B} size (self self' : t B) :
  is_uint size ->
  0 <= mWritePosition self ->
  mWritePosition self + size <= UINT_MAX ->
  reserveSpace size self = (Ok tt, self') ->
  mWritePosition self' + size <= getBufferSize self'.
Proof.
  intros U Hw Hsum E.
  destruct (Z_lt_le_dec (getBufferSize self) size) as [Hgrow | Hfit].
  - destruct (reserveSpace_grow_result size self self' U Hgrow E) as (Hc & Hp & _).
    rewrite Hp. lia.
  - destruct (Z_lt_le_dec (getBufferSize self) (to_uint (mWritePosition self + size)))
      as [Hfull | Hroom].
    + destruct (reserveSpace_discard_result size self self' Hfit Hfull E)
        as (Hc & Hp & _).
      rewrite Hp, Hc. lia.
    + rewrite (reserveSpace_keep_path size self Hfit Hroom) in E.
      injection E as <-.
      rewrite to_uint_small in Hroom by (unfold is_uint in *; lia).
      lia.
Qed.

(** X3. After a successful [reserveSpace size], with cursor and request
    unsigned 32-bit integers whose sum is one as well, the request fits
    behind the cursor: cursor plus [size] is within the capacity.  The
    capacity has not shrunk, and the cursor is the old one or 0. *)
Theorem reserveSpace_makes_room `{!VertexBufferLaws B} size (self self' : t B) :
  is_uint size ->
  0 <= mWritePosition self ->
  mWritePosition self + size <= UINT_MAX ->
  reserveSpace size self = (Ok tt, self') ->
  mWritePosition self' + size <= getBufferSize self' /\
  getBufferSize self <= getBufferSize self' /\
  (mWritePosition self' = mWritePosition self \/ mWritePosition self' = 0).
Proof.
  intros U Hw Hsum E.
  split; [exact (reserveSpace_room size self self' U Hw Hsum E)|].
  split.
  - destruct (Z_lt_le_dec (getBufferSize self) size) as [Hgrow | Hfit].
    + destruct (reserveSpace_grow_result size self self' U Hgrow E) as (Hc & _). lia.
    + destruct (Z_lt_le_dec (getBufferSize self) (to_uint (mWritePosition self + size)))
        as [Hfull | Hroom].
      * destruct (reserveSpace_discard_result size self self' Hfit Hfull E) as (Hc & _).
        lia.
      * rewrite (reserveSpace_keep_path size self Hfit Hroom) in E.
        injection E as <-. lia.
  - destruct (reserveSpace_frame _ _ _ _ E) as [_ [Hsame | [_ Hzero]]]; auto.
Qed.

(** ** storeDynamicAttribute, whatever its result *)

(** A successful store, step by step. *)
Lemma storeDynamicAttribute_ok args (self self' : t B) offset :
  storeDynamicAttribute args self = (Ok offset, self') ->
  exists mid stored,
    reserveSpace (mReservedSpace self) self = (Ok tt, mid) /\
    vbStoreVertexAttributes args (mWritePosition mid)
      (VertexBufferInterface.mVertexBuffer (base mid)) = (Ok tt, stored) /\
    offset = mWritePosition mid /\
    self' = mk (VertexBufferInterface.set_mVertexBuffer stored (base mid))
               (mWritePosition mid + alignedSize args) 0 /\
    is_uint (mWritePosition self) /\
    is_uint (alignedSize args) /\
    mWritePosition self + alignedSize args <= UINT_MAX.
Proof.
  unfold storeDynamicAttribute, alignedSize. run.
  destruct (VertexBufferInterface.getSpaceRequired _ _ _ _) as [sp|e] eqn:E;
    [|discriminate].
  pose proof (getSpaceRequired_is_uint _ _ _ _ _ E) as Usp.
  destruct (checked (mWritePosition self)) as [w|] eqn:Ew; simpl; [|discriminate].
  apply checked_Some in Ew. destruct Ew as [Uw ->].
  destruct (checked (mWritePosition self + sp)) as [w|] eqn:Es; simpl;
    [|discriminate].
  apply checked_Some in Es. destruct Es as [Us _].
  destruct (reserveSpace (mReservedSpace self) self) as [[[]|e] mid] eqn:R;
    [|discriminate].
  simpl. unfold onBase, VertexBufferInterface.onBuffer, zoom. simpl.
  destruct (vbStoreVertexAttributes args (mWritePosition mid)
              (VertexBufferInterface.mVertexBuffer (base mid)))
    as [[[]|e] stored] eqn:S; [|discriminate].
  intros [= <- <-]. exists mid, stored.
  destruct (reserveSpace_frame _ _ _ _ R) as [_ Hw].
  unfold is_uint in *.
  rewrite to_uint_small by (unfold is_uint; destruct Hw as [-> | [_ ->]]; lia).
  unfold set_mWritePosition, set_base, set_mReservedSpace. simpl.
  split; [reflexivity|]. split; [exact S|]. split; [reflexivity|].
  split; [reflexivity|]. lia.
Qed.

(** X4. A successful [storeDynamicAttribute] returns the cursor as
    [reserveSpace] left it, which is the cursor before the call or 0, moves
    the cursor from there by the aligned size of the attribute, without
    wrapping, and leaves nothing reserved. *)
Theorem storeDynamicAttribute_success args (self self' : t B) offset :
  storeDynamicAttribute args self = (Ok offset, self') ->
  (offset = mWritePosition self \/ offset = 0) /\
  mWritePosition self' = offset + alignedSize args /\
  mWritePosition self' <= UINT_MAX /\
  mReservedSpace self' = 0.
Proof.
  intros E.
  destruct (storeDynamicAttribute_ok _ _ _ _ E)
    as (mid & stored & R & _ & -> & -> & Uw & Us & Hsum).
  destruct (reserveSpace_frame _ _ _ _ R) as [_ Hw]. simpl.
  unfold is_uint in *.
  split; [tauto|]. split; [reflexivity|]. split; [|reflexivity].
  destruct Hw as [-> | [_ ->]]; lia.
Qed.

(** X5. A [storeDynamicAttribute] that fails never moves the cursor forward:
    the cursor is the old one, or 0 when [reserveSpace] had reset it before
    the buffer refused the data; the reservation is the old one or
    consumed. *)
Theorem storeDynamicAttribute_failure args (self self' : t B) e :
  storeDynamicAttribute args self = (Err e, self') ->
  (mWritePosition self' = mWritePosition self \/ mWritePosition self' = 0) /\
  (mReservedSpace self' = mReservedSpace self \/ mReservedSpace self' = 0).
Proof.
  unfold storeDynamicAttribute. run.
  destruct (VertexBufferInterface.getSpaceRequired _ _ _ _) as [sp|e0].
  2:{ intros [= <- <-]. auto. }
  destruct (checked_add _ _); simpl.
  2:{ intros [= <- <-]. auto. }
  destruct (reserveSpace (mReservedSpace self) self) as [[[]|e0] mid] eqn:R.
  2:{ intros [= <- <-].
      destruct (reserveSpace_frame _ _ _ _ R) as [Hr [Hw | [Hok _]]];
        [auto | discriminate]. }
  destruct (reserveSpace_frame _ _ _ _ R) as [Hr Hw].
  simpl. unfold onBase, VertexBufferInterface.onBuffer, zoom. simpl.
  destruct (vbStoreVertexAttributes args (mWritePosition mid)
              (VertexBufferInterface.mVertexBuffer (base mid)))
    as [[[]|e0] stored]; [discriminate|].
  intros [= <- <-]. simpl. split; [tauto | auto].
Qed.

(** X6. With nothing reserved and the cursor within the capacity,
    [storeDynamicAttribute] neither resizes nor discards, whatever the size
    of the attribute: a successful call has done nothing to the buffer but
    store at the old cursor. *)
Theorem storeDynamicAttribute_unreserved `{!VertexBufferLaws B} args
        (self self' : t B) offset :
  mReservedSpace self = 0 ->
  mWritePosition self <= getBufferSize self ->
  storeDynamicAttribute args self = (Ok offset, self') ->
  offset = mWritePosition self /\
  vbStoreVertexAttributes args (mWritePosition self)
    (VertexBufferInterface.mVertexBuffer (base self))
  = (Ok tt, VertexBufferInterface.mVertexBuffer (base self')).
Proof.
  intros Hr Hw E.
  destruct (storeDynamicAttribute_ok _ _ _ _ E)
    as (mid & stored & R & S & -> & -> & Uw & _).
  pose proof (size_is_uint (VertexBufferInterface.mVertexBuffer (base self))) as Uc.
  fold (VertexBufferInterface.getBufferSize (base self)) in Uc.
  fold (getBufferSize self) in Uc. unfold is_uint in *.
  rewrite Hr, reserveSpace_keep_path in R.
  - injection R as <-. simpl. auto.
  - lia.
  - rewrite Z.add_0_r, to_uint_small by (unfold is_uint; lia). lia.
Qed.

End StreamingEffects.

(** ** Draws *)

Section DrawFacts.
Context {B : Type} `{VB : VertexBufferImpl B} `{F : BufferFactoryD3D}
        `{!VertexBufferLaws B}.
Import StreamingVertexBufferInterface.
Local Open Scope method_scope.

Lemma reserveFor_ok args (self self' : t B) :
  reserveFor args self = (Ok tt, self') ->
  base self' = base self /\
  mWritePosition self' = mWritePosition self /\
  mReservedSpace self' = alignedSize args + mReservedSpace self /\
  is_uint (mReservedSpace self').
Proof.
  unfold reserveFor, reserveVertexSpace, alignedSize. run.
  destruct (getVertexSpaceRequired _ _ _ _) as [req|e] eqn:E; [|discriminate].
  destruct (CheckedRoundUp req 16) as [v|] eqn:C; simpl; [|discriminate].
  rewrite (getSpaceRequired_of_checked _ _ _ _ _ _ E C).
  destruct (checked (v + mReservedSpace self)) as [w|] eqn:S; [|discriminate].
  apply checked_Some in S. destruct S as [U ->].
  intros [= <-]. simpl. auto.
Qed.

Lemma reserveAll_ok calls : forall (self self' : t B),
  is_uint (mReservedSpace self) ->
  reserveAll calls self = (Ok tt, self') ->
  base self' = base self /\
  mWritePosition self' = mWritePosition self /\
  mReservedSpace self' = total (map alignedSize calls) + mReservedSpace self /\
  is_uint (mReservedSpace self').
Proof.
  induction calls as [|args rest IH]; intros self self' U.
  - intros [= <-]. unfold total. simpl.
    split; [reflexivity|]. split; [reflexivity|]. split; [lia | exact U].
  - simpl. unfold bind at 1.
    destruct (reserveFor args self) as [[[]|e] s1] eqn:E1; [|discriminate].
    intros E2.
    destruct (reserveFor_ok _ _ _ E1) as (Hb & Hw & Hr & U1).
    destruct (IH _ _ U1 E2) as (Hb' & Hw' & Hr' & U').
    split; [congruence|]. split; [congruence|]. split; [|exact U'].
    rewrite Hr', Hr. unfold total. simpl. fold (total (map alignedSize rest)). lia.
Qed.

(** An undisturbed run ends with the capacity it started with, the cursor
    moved by the sizes of its stores, and nothing reserved. *)
Lemma storeAll_final calls : forall (self self' : t B) offsets,
  storeAll calls self = (Ok offsets, self') ->
  undisturbed calls self ->
  mReservedSpace self = 0 ->
  getBufferSize self' = getBufferSize self /\
  mWritePosition self' = mWritePosition self + total (map alignedSize calls) /\
  mReservedSpace self' = 0.
Proof.
  induction calls as [|args rest IH]; intros self self'' offsets E U Hr.
  - injection E as _ <-. simpl. repeat split; auto. lia.
  - destruct U as [K U].
    apply storeAll_cons in E. destruct E as (o1 & self' & os & E1 & E2 & ->).
    rewrite E1 in U. simpl in U.
    destruct (storeDynamicAttribute_step _ _ _ _ K E1) as (Ho1 & _ & Hw & Hr').
    pose proof (storeDynamicAttribute_capacity _ _ _ _ K E1) as Hc.
    destruct (IH _ _ _ E2 U Hr') as (Hc' & Hw' & Hr'').
    simpl. rewrite Hc', Hw', Hc, Hw, Ho1. repeat split; auto. lia.
Qed.

(** No range of an undisturbed run ends beyond the cursor the run ends
    with. *)
Lemma storeAll_upper_bound calls : forall (self self' : t B) offsets,
  storeAll calls self = (Ok offsets, self') ->
  undisturbed calls self ->
  forall i o s,
    nth_error offsets i = Some o ->
    nth_error (map alignedSize calls) i = Some s ->
    o + s <= mWritePosition self + total (map alignedSize calls).
Proof.
  induction calls as [|args rest IH]; intros self self'' offsets E U i o s Ho Hs.
  - destruct i; discriminate.
  - destruct U as [K U].
    apply storeAll_cons in E. destruct E as (o1 & self' & os & E1 & E2 & ->).
    rewrite E1 in U. simpl in U.
    destruct (storeDynamicAttribute_step _ _ _ _ K E1) as (Ho1 & _ & Hw & _).
    pose proof (total_nonneg rest) as Ht.
    destruct i as [|i]; simpl in Ho, Hs |- *.
    + injection Ho as <-. injection Hs as <-. lia.
    + pose proof (IH _ _ _ E2 U i o s Ho Hs). lia.
Qed.

(** X7. A draw on an interface with nothing reserved, its cursor and the
    aligned sizes of its attributes summing to an unsigned 32-bit integer:
    when every attribute is reserved and then every attribute is stored,
    all successfully, each attribute lies within the capacity of the buffer
    as the draw leaves it, no range reaches the offset of a later one, and,
    if there was an attribute at all, the cursor ends within the capacity
    with nothing reserved. *)
Theorem reserveAndStoreAll_within_capacity calls (self self' : t B) offsets :
  mReservedSpace self = 0 ->
  0 <= mWritePosition self ->
  mWritePosition self + total (map alignedSize calls) <= UINT_MAX ->
  reserveAndStoreAll calls self = (Ok offsets, self') ->
  within_capacity offsets (map alignedSize calls) (getBufferSize self') /\
  pairwise_disjoint offsets (map alignedSize calls) /\
  (calls <> [] ->
   mWritePosition self' <= getBufferSize self' /\ mReservedSpace self' = 0).
Proof.
  intros Hr Hw Hsum. unfold reserveAndStoreAll, bind.
  destruct (reserveAll calls self) as [[[]|e] s1] eqn:ER; [|discriminate].
  intros ES.
  destruct (reserveAll_ok calls self s1) as (Hb1 & Hw1 & Hr1 & U1);
    [rewrite Hr; unfold is_uint, UINT_MAX; lia | exact ER |].
  rewrite Hr, Z.add_0_r in Hr1.
  destruct calls as [|args rest].
  - injection ES as <- _.
    split; [intros [|i] o s Ho; discriminate|].
    split; [intros [|i] j o s o' _ Ho; discriminate|].
    intros Hne. contradiction.
  - apply storeAll_cons in ES. destruct ES as (o1 & s2 & os & E1 & E2 & ->).
    destruct (storeDynamicAttribute_ok _ _ _ _ E1)
      as (mid & stored & R & S & Ho1 & Hs2 & Uw & Ua & _).
    rewrite Hr1 in R. rewrite Hr1 in U1.
    assert (Hroom : mWritePosition mid + total (map alignedSize (args :: rest))
                    <= getBufferSize mid).
    { apply (reserveSpace_room _ s1 mid U1); [lia | lia | exact R]. }
    destruct (reserveSpace_frame _ _ _ _ R) as [_ Hmid].
    assert (Hmid0 : 0 <= mWritePosition mid)
      by (destruct Hmid as [-> | [_ ->]]; lia).
    assert (Hc2 : getBufferSize s2 = getBufferSize mid).
    { rewrite Hs2. unfold getBufferSize, VertexBufferInterface.getBufferSize. simpl.
      eapply store_size; eauto. }
    assert (Hw2 : mWritePosition s2 = mWritePosition mid + alignedSize args)
      by (rewrite Hs2; reflexivity).
    assert (Hr2 : mReservedSpace s2 = 0) by (rewrite Hs2; reflexivity).
    simpl in Hroom. unfold is_uint in Ua.
    assert (U2 : undisturbed rest s2).
    { apply (storeAll_undisturbed rest s2 self' os E2 Hr2); lia. }
    destruct (storeAll_final _ _ _ _ E2 U2 Hr2) as (Hc' & Hw' & Hr').
    pose proof (total_nonneg rest) as Ht.
    split; [|split].
    + intros [|i] o s Ho Hs; simpl in Ho, Hs.
      * injection Ho as <-. injection Hs as <-. lia.
      * pose proof (storeAll_lower_bound _ _ _ _ E2 U2 i o Ho).
        pose proof (storeAll_upper_bound _ _ _ _ E2 U2 i o s Ho Hs). lia.
    + intros i j o s o' Hij Ho Hs Ho'.
      destruct j as [|j]; [lia|]. simpl in Ho'.
      destruct i as [|i]; simpl in Ho, Hs.
      * injection Ho as <-. injection Hs as <-.
        pose proof (storeAll_lower_bound _ _ _ _ E2 U2 j o' Ho'). lia.
      * apply (storeAll_pairwise _ _ _ _ E2 U2 i j o s o'); auto. lia.
    + intros _. split; [lia | exact Hr'].
Qed.

End DrawFacts.

(** ** Alignment of the offsets *)

Lemma roundUp_aligned value : roundUp value 16 mod 16 = 0.
Proof.
  unfold roundUp.
  pose proof (to_uint_is_uint (value + 16 - 1)) as U.
  set (temp := to_uint (value + 16 - 1)) in *. unfold is_uint in U.
  assert (B : 0 <= temp - temp mod 16 <= UINT_MAX)
    by (Z.div_mod_to_equations; lia).
  rewrite to_uint_small by exact B.
  Z.div_mod_to_equations; lia.
Qed.

Section Alignment.
Context {B : Type} `{VB : VertexBufferImpl B} `{F : BufferFactoryD3D}.
Import StreamingVertexBufferInterface.
Local Open Scope method_scope.

Lemma alignedSize_aligned args : alignedSize args mod 16 = 0.
Proof.
  unfold alignedSize, VertexBufferInterface.getSpaceRequired.
  destruct (getVertexSpaceRequired _ _ _ _) as [r|e]; [|reflexivity].
  destruct (_ <? _); [reflexivity | apply roundUp_aligned].
Qed.

(** The cursor after a store, successful or not, relative to the one
    before. *)
Lemma storeDynamicAttribute_cursor args (self self' : t B) r :
  storeDynamicAttribute args self = (r, self') ->
  match r with
  | Ok offset =>
      (offset = mWritePosition self \/ offset = 0) /\
      mWritePosition self' = offset + alignedSize args
  | Err _ => mWritePosition self' = mWritePosition self \/ mWritePosition self' = 0
  end.
Proof.
  destruct r as [offset|e]; intros E.
  - destruct (storeDynamicAttribute_ok _ _ _ _ E)
      as (mid & stored & R & _ & -> & -> & _).
    destruct (reserveSpace_frame _ _ _ _ R) as [_ Hw]. simpl.
    split; [tauto | reflexivity].
  - revert E. unfold storeDynamicAttribute. run.
    destruct (VertexBufferInterface.getSpaceRequired _ _ _ _) as [sp|e0].
    2:{ intros [= <- <-]. auto. }
    destruct (checked_add _ _); simpl.
    2:{ intros [= <- <-]. auto. }
    destruct (reserveSpace (mReservedSpace self) self) as [[[]|e0] mid] eqn:R.
    2:{ intros [= <- <-].
        destruct (reserveSpace_frame _ _ _ _ R) as [_ [Hw | [Hok _]]];
          [auto | discriminate]. }
    destruct (reserveSpace_frame _ _ _ _ R) as [_ Hw].
    simpl. unfold onBase, VertexBufferInterface.onBuffer, zoom. simpl.
    destruct (vbStoreVertexAttributes args (mWritePosition mid)
                (VertexBufferInterface.mVertexBuffer (base mid)))
      as [[[]|e0] stored]; [discriminate|].
    intros [= <- <-]. simpl. tauto.
Qed.

Lemma reserveFor_cursor args (self : t B) :
  mWritePosition (snd (reserveFor args self)) = mWritePosition self.
Proof.
  unfold reserveFor, reserveVertexSpace. run.
  destruct (getVertexSpaceRequired _ _ _ _) as [req|e]; [|reflexivity].
  destruct (checked_add _ _); reflexivity.
Qed.

Lemma onBase_cursor {A} (m : M (VertexBufferInterface.t B) A) (self : t B) :
  mWritePosition (snd (onBase m self)) = mWritePosition self.
Proof. unfold onBase, zoom. destruct (m (base self)). reflexivity. Qed.

(** X8. Whatever public methods are called on a streaming interface whose
    cursor is a multiple of 16 (as it is after construction), in whatever
    order and with whatever results, every offset a store returns is a
    multiple of 16, and so is the cursor at the end. *)
Theorem offsets_are_aligned calls : forall (self : t B),
  mWritePosition self mod 16 = 0 ->
  Forall (fun offset => offset mod 16 = 0) (fst (runCalls calls self)) /\
  mWritePosition (snd (runCalls calls self)) mod 16 = 0.
Proof.
  induction calls as [|call rest IH]; intros self Ha; simpl.
  - split; [constructor | exact Ha].
  - destruct call as [args | args | n | n |].
    + apply IH. rewrite reserveFor_cursor. exact Ha.
    + destruct (storeDynamicAttribute args self) as [r self'] eqn:E.
      pose proof (storeDynamicAttribute_cursor _ _ _ _ E) as C.
      pose proof (alignedSize_aligned args) as Hs.
      assert (Ha' : mWritePosition self' mod 16 = 0).
      { destruct r as [offset|e].
        - destruct C as [[-> | ->] ->]; Z.div_mod_to_equations; lia.
        - destruct C as [-> | ->]; [exact Ha | reflexivity]. }
      specialize (IH self' Ha').
      destruct (runCalls rest self') as [offsets final]. simpl in IH |- *.
      destruct IH as [IHo IHf]. split; [|exact IHf].
      destruct r as [offset|e]; [|exact IHo].
      constructor; [|exact IHo].
      destruct C as [[-> | ->] _]; [exact Ha | reflexivity].
    + apply IH. unfold initialize. rewrite onBase_cursor. exact Ha.
    + apply IH. rewrite onBase_cursor. exact Ha.
    + apply IH. rewrite onBase_cursor. exact Ha.
Qed.

End Alignment.

(** ** Reference counts and serials *)

Lemma release_addRef (self : VertexBuffer.t) :
  1 <= VertexBuffer.mRefCount self < UINT_MAX ->
  VertexBuffer.release (VertexBuffer.addRef self) = Some self.
Proof.
  unfold UINT_MAX. intros Hc. destruct self as [n serial]. simpl in Hc.
  unfold VertexBuffer.release, VertexBuffer.addRef. simpl.
  rewrite (to_uint_small (n + 1)) by (unfold is_uint, UINT_MAX; lia).
  replace (n + 1 - 1) with n by lia.
  rewrite to_uint_small by (unfold is_uint, UINT_MAX; lia).
  destruct (n =? 0) eqn:E; [lia | reflexivity].
Qed.

Lemma addRefs_count k : forall self,
  VertexBuffer.mRefCount self + Z.of_nat k <= UINT_MAX ->
  0 <= VertexBuffer.mRefCount self ->
  VertexBuffer.mRefCount (addRefs k self) = VertexBuffer.mRefCount self + Z.of_nat k /\
  VertexBuffer.mSerial (addRefs k self) = VertexBuffer.mSerial self.
Proof.
  induction k as [|k IH]; intros self Hmax Hpos.
  - simpl. split; [lia | reflexivity].
  - unfold addRefs in *. simpl Nat.iter.
    destruct (IH self) as [Hc Hs]; [lia | lia |].
    unfold VertexBuffer.addRef at 1. simpl. rewrite Hc, Hs.
    rewrite to_uint_small by (unfold is_uint; lia). split; [lia | reflexivity].
Qed.

Lemma releases_S k self :
  releases (S k) self =
  match VertexBuffer.release self with
  | Some self' => releases k self'
  | None => None
  end.
Proof. reflexivity. Qed.

(** X9. References are counted: after [k] calls of [addRef] on a buffer,
    [k] calls of [release] give the buffer back as it was, serial included,
    as long as the count stays within the unsigned 32-bit range; the buffer
    its constructor returned, which holds one reference, deletes itself on
    the release after those. *)
Theorem releases_balance_addRefs k (self : VertexBuffer.t) :
  1 <= VertexBuffer.mRefCount self ->
  VertexBuffer.mRefCount self + Z.of_nat k <= UINT_MAX ->
  releases k (addRefs k self) = Some self /\
  (VertexBuffer.mRefCount self = 1 ->
   releases (S k) (addRefs k self) = None).
Proof.
  revert self. induction k as [|k IH]; intros self Hpos Hmax.
  - simpl. split; [reflexivity|]. intros H1.
    unfold VertexBuffer.release. rewrite H1. reflexivity.
  - assert (E : VertexBuffer.release (addRefs (S k) self) = Some (addRefs k self)).
    { unfold addRefs. simpl Nat.iter. apply release_addRef.
      destruct (addRefs_count k self) as [Hc _]; [lia | lia |].
      unfold addRefs in Hc. rewrite Hc. lia. }
    destruct (IH self) as [Hk Hdel]; [lia | lia |].
    split.
    + rewrite releases_S, E. exact Hk.
    + intros H1. rewrite releases_S, E. exact (Hdel H1).
Qed.

(** X10. The first serial a process assigns, by the constructor of a buffer
    or by [updateSerial] on a buffer that exists, is 1, and each further
    assignment hands out the serial of the one before plus one, modulo 2^32:
    serial 0 is handed out as well, by the assignment after 2^32 - 1
    others. *)
Theorem serials_count_up history :
  VertexBuffer.serialAssigned history 0 = 1 /\
  (forall k,
      VertexBuffer.serialAssigned history (N.succ k)
      = to_uint (VertexBuffer.serialAssigned history k + 1)) /\
  VertexBuffer.serialAssigned history 4294967295 = 0.
Proof.
  split; [rewrite serialAssigned_closed; reflexivity|]. split.
  - intros k. rewrite !serialAssigned_closed, N2Z.inj_succ. unfold to_uint.
    rewrite Z.add_mod_idemp_l by lia. f_equal. lia.
  - rewrite serialAssigned_closed. reflexivity.
Qed.

(** ** The static signature, further *)

Section SignatureFacts.
Context {B : Type} `{VB : VertexBufferImpl B} `{F : BufferFactoryD3D}
        `{L : VertexAttributeLayout}.
Import StaticVertexBufferInterface.

(** What [AttributeSignature::matchesAttribute] has tested when it answers
    true. *)
Lemma signature_matches_elim (sig : AttributeSignature.t) attrib binding :
  AttributeSignature.matchesAttribute sig attrib binding = true ->
  AttributeSignature.type sig = VertexAttribute.type attrib /\
  AttributeSignature.size sig = VertexAttribute.size attrib /\
  to_uint (AttributeSignature.stride sig) = strideOf attrib binding /\
  AttributeSignature.normalized sig = VertexAttribute.normalized attrib /\
  AttributeSignature.pureInteger sig = VertexAttribute.pureInteger attrib /\
  offsetOf attrib binding mod strideOf attrib binding = AttributeSignature.offset sig.
Proof.
  unfold AttributeSignature.matchesAttribute, strideOf, offsetOf.
  destruct (Z.eqb_spec (AttributeSignature.type sig) (VertexAttribute.type attrib));
    simpl; [|discriminate].
  destruct (Z.eqb_spec (AttributeSignature.size sig) (VertexAttribute.size attrib));
    simpl; [|discriminate].
  destruct (Z.eqb_spec (to_uint (AttributeSignature.stride sig))
              (to_size_t (ComputeVertexAttributeStride attrib binding)));
    simpl; [|discriminate].
  destruct (Bool.eqb_spec (AttributeSignature.normalized sig)
              (VertexAttribute.normalized attrib));
    simpl; [|discriminate].
  destruct (Bool.eqb_spec (AttributeSignature.pureInteger sig)
              (VertexAttribute.pureInteger attrib));
    simpl; [|discriminate].
  rewrite Z.eqb_eq. intuition congruence.
Qed.

(** X11. A static interface that has stored nothing yet matches no
    attribute that has a component type, a component or a stride: the
    signature its constructor leaves has none of them. *)
Theorem fresh_interface_matches_nothing (buffer : B) attrib binding :
  VertexAttribute.type attrib <> GL_NONE \/
  VertexAttribute.size attrib <> 0 \/
  strideOf attrib binding <> 0 ->
  matchesAttribute (construct buffer) attrib binding = false.
Proof.
  intros Hd. unfold matchesAttribute, construct. simpl.
  destruct (AttributeSignature.matchesAttribute AttributeSignature.initial
              attrib binding) eqn:E; [|reflexivity].
  apply signature_matches_elim in E.
  unfold AttributeSignature.initial in E. simpl in E.
  destruct E as (Ht & Hs & Hstr & _).
  change (to_uint 0) with 0 in Hstr.
  exfalso. destruct Hd as [Hd | [Hd | Hd]]; congruence.
Qed.

(** X12. After [setAttribute] with a descriptor [d] whose stride is nonzero
    and fits a GLuint, [matchesAttribute] accepts a descriptor [d'] exactly
    when [d'] has the component type, component count, normalization flag,
    integer flag and stride of [d] and a byte offset a whole number of
    strides away from that of [d]: data stored under another layout is
    never taken for a match. *)
Theorem matchesAttribute_after_setAttribute attrib binding attrib' binding'
        (self self' : t B) :
  0 < strideOf attrib binding <= UINT_MAX ->
  setAttribute attrib binding self = (Ok tt, self') ->
  matchesAttribute self' attrib' binding' = true <->
  same_format attrib attrib' /\
  strideOf attrib' binding' = strideOf attrib binding /\
  exists k, offsetOf attrib' binding' = offsetOf attrib binding + k * strideOf attrib binding.
Proof.
  intros Hst E.
  destruct (setAttribute_signature _ _ _ _ _ E) as [_ Hsig].
  unfold matchesAttribute. rewrite Hsig. split.
  - intros Hm. apply signature_matches_elim in Hm.
    unfold AttributeSignature.set in Hm. simpl in Hm.
    fold (strideOf attrib binding) (offsetOf attrib binding) in Hm.
    destruct Hm as (Ht & Hs & Hstr & Hn & Hp & Hoff).
    rewrite to_uint_small in Hstr by apply to_uint_is_uint.
    rewrite to_uint_small in Hstr by (unfold is_uint; lia).
    split; [unfold same_format; auto|]. split; [auto|].
    rewrite <- Hstr in Hoff.
    exists (offsetOf attrib' binding' / strideOf attrib binding
            - offsetOf attrib binding / strideOf attrib binding).
    pose proof (Z.div_mod (offsetOf attrib' binding') (strideOf attrib binding)).
    pose proof (Z.div_mod (offsetOf attrib binding) (strideOf attrib binding)).
    nia.
  - intros (Hf & Hs & k & Hoff). exact (set_matches _ _ _ _ k Hf Hs Hst Hoff).
Qed.

End SignatureFacts.

(** ** Reservations that overflow, draws that fit *)

Section Reservations.
Context {B : Type} `{VB : VertexBufferImpl B} `{F : BufferFactoryD3D}.
Import StreamingVertexBufferInterface.
Local Open Scope method_scope.

(** X13. When the aligned size of an attribute added to the pending
    reservation does not fit an unsigned 32-bit integer,
    [reserveVertexSpace] reports the overflow, naming the unaligned size,
    and leaves the interface as it was. *)
Theorem reserveVertexSpace_overflows attrib binding count instances (self : t B) v :
  VertexBufferInterface.getSpaceRequired attrib binding count instances = Ok v ->
  UINT_MAX < v + mReservedSpace self ->
  exists requiredSpace,
    getVertexSpaceRequired attrib binding count instances = Ok requiredSpace /\
    reserveVertexSpace attrib binding count instances self
    = (Err (reserveVertexSpace_overflow requiredSpace), self).
Proof.
  intros E Hov.
  unfold VertexBufferInterface.getSpaceRequired in E.
  destruct (getVertexSpaceRequired attrib binding count instances) as [req|e] eqn:Er;
    [|discriminate].
  exists req. split; [reflexivity|].
  unfold reserveVertexSpace, reserveVertexSpace_overflow. run. rewrite Er.
  destruct (CheckedRoundUp req 16) as [v'|] eqn:C; simpl; [|reflexivity].
  apply CheckedRoundUp_Some in C. destruct C as (_ & _ & ->).
  destruct (roundUp req 16 <? req); [discriminate|]. injection E as <-.
  destruct (checked (roundUp req 16 + mReservedSpace self)) as [w|] eqn:S;
    [|reflexivity].
  apply checked_Some in S. unfold is_uint in S. lia.
Qed.

Context `{!VertexBufferLaws B}.

Lemma getBufferSize_nonneg (self : t B) : 0 <= getBufferSize self.
Proof.
  pose proof (size_is_uint (VertexBufferInterface.mVertexBuffer (base self))) as U.
  unfold getBufferSize, VertexBufferInterface.getBufferSize, is_uint in *. lia.
Qed.

(** A request within the capacity never resizes. *)
Lemma reserveSpace_fits_capacity size (self mid : t B) :
  size <= getBufferSize self ->
  reserveSpace size self = (Ok tt, mid) ->
  getBufferSize mid = getBufferSize self.
Proof.
  intros Hfit E.
  destruct (Z_lt_le_dec (getBufferSize self) (to_uint (mWritePosition self + size)))
    as [Hfull | Hroom].
  - apply (reserveSpace_discard_result size self mid Hfit Hfull E).
  - rewrite (reserveSpace_keep_path size self Hfit Hroom) in E.
    injection E as <-. reflexivity.
Qed.

Lemma storeDynamicAttribute_fits_capacity args (self self' : t B) offset :
  mReservedSpace self <= getBufferSize self ->
  storeDynamicAttribute args self = (Ok offset, self') ->
  getBufferSize self' = getBufferSize self /\ mReservedSpace self' = 0.
Proof.
  intros Hfit E.
  destruct (storeDynamicAttribute_ok _ _ _ _ E) as (mid & stored & R & S & _ & -> & _).
  split; [|reflexivity].
  rewrite <- (reserveSpace_fits_capacity _ _ _ Hfit R).
  unfold getBufferSize, VertexBufferInterface.getBufferSize. simpl.
  eapply store_size; eauto.
Qed.

Lemma storeAll_fits_capacity calls : forall (self self' : t B) offsets,
  mReservedSpace self <= getBufferSize self ->
  storeAll calls self = (Ok offsets, self') ->
  getBufferSize self' = getBufferSize self.
Proof.
  induction calls as [|args rest IH]; intros self self'' offsets Hfit E.
  - injection E as _ <-. reflexivity.
  - apply storeAll_cons in E. destruct E as (o1 & self' & os & E1 & E2 & _).
    destruct (storeDynamicAttribute_fits_capacity _ _ _ _ Hfit E1) as [Hc Hr].
    rewrite <- Hc. apply (IH _ _ _) with (2 := E2).
    rewrite Hr. apply getBufferSize_nonneg.
Qed.

(** X14. A draw whose attributes, aligned, together fit the capacity never
    resizes the buffer: reserved and stored successfully on an interface
    with nothing reserved, it leaves the capacity as it was, wherever the
    cursor stood. *)
Theorem reserveAndStoreAll_keeps_capacity calls (self self' : t B) offsets :
  mReservedSpace self = 0 ->
  total (map alignedSize calls) <= getBufferSize self ->
  reserveAndStoreAll calls self = (Ok offsets, self') ->
  getBufferSize self' = getBufferSize self.
Proof.
  intros Hr Hfit. unfold reserveAndStoreAll, bind.
  destruct (reserveAll calls self) as [[[]|e] s1] eqn:ER; [|discriminate].
  intros ES.
  destruct (reserveAll_ok calls self s1) as (Hb1 & _ & Hr1 & _);
    [rewrite Hr; unfold is_uint, UINT_MAX; lia | exact ER |].
  assert (Hc1 : getBufferSize s1 = getBufferSize self)
    by (unfold getBufferSize; rewrite Hb1; reflexivity).
  rewrite <- Hc1. apply (storeAll_fits_capacity calls s1 self' offsets); [|exact ES].
  rewrite Hr1, Hr, Hc1. lia.
Qed.

End Reservations.

(** ** The buffer of a static store *)

Section StaticCapacity.
Context {B : Type} `{VB : VertexBufferImpl B} `{F : BufferFactoryD3D}
        `{L : VertexAttributeLayout}
        `{!VertexBufferLaws B} `{!VertexBufferHintLaws B}.
Import StaticVertexBufferInterface.

(** X15. A successful [storeStaticAttribute] leaves a buffer that has room
    for the attribute: its capacity is at least the aligned size
    [getSpaceRequired] computes, and the signature is the attribute's. *)
Theorem storeStaticAttribute_makes_room
        attrib binding start count instances sourceData (self self' : t B) :
  storeStaticAttribute attrib binding start count instances sourceData self
  = (Ok tt, self') ->
  exists spaceRequired,
    VertexBufferInterface.getSpaceRequired attrib binding (to_size_t count) instances
    = Ok spaceRequired /\
    spaceRequired <= VertexBufferInterface.getBufferSize (base self') /\
    mSignature self' = AttributeSignature.set attrib binding.
Proof.
  intros E.
  destruct (storeStaticAttribute_cases _ _ _ _ _ _ _ _ _ E)
    as [(e & He & _) | (_ & Hs & sp & resized & stored & Hsp & Hsz & Hst & Hb)];
    [discriminate|].
  exists sp. split; [exact Hsp|]. split; [|exact Hs].
  unfold VertexBufferInterface.getBufferSize. rewrite Hb, hint_size.
  rewrite (store_size _ _ _ _ Hst).
  apply (interface_setBufferSize_size sp (base self) resized); [|exact Hsz].
  exact (getSpaceRequired_is_uint _ _ _ _ _ Hsp).
Qed.

End StaticCapacity.

(** ** reserveSpace twice *)

Section Idempotence.
Context {B : Type} `{VB : VertexBufferImpl B} `{F : BufferFactoryD3D}
        `{!VertexBufferLaws B}.
Import StreamingVertexBufferInterface.

(** X16. [reserveSpace] is idempotent: once a call for [size] bytes has
    succeeded (cursor and request unsigned 32-bit integers, and their sum as
    well), a second call for the same size finds the room and changes
    nothing: no second discard, no second resize. *)
Theorem reserveSpace_idempotent size (self self' : t B) :
  is_uint size ->
  0 <= mWritePosition self ->
  mWritePosition self + size <= UINT_MAX ->
  reserveSpace size self = (Ok tt, self') ->
  reserveSpace size self' = (Ok tt, self').
Proof.
  intros U Hw Hsum E.
  pose proof (reserveSpace_room size self self' U Hw Hsum E) as Hroom.
  destruct (reserveSpace_frame _ _ _ _ E) as [_ Hc].
  unfold is_uint in U.
  assert (Hw' : 0 <= mWritePosition self' <= mWritePosition self)
    by (destruct Hc as [-> | [_ ->]]; lia).
  apply reserveSpace_keep_path; [lia|].
  rewrite to_uint_small by (unfold is_uint; lia). exact Hroom.
Qed.

End Idempotence.

(** ** The further properties on the simulated buffer *)

Lemma Sim_hint_laws : @VertexBufferHintLaws Sim.Buffer Sim.buffer.
Proof. constructor. intros b. reflexivity. Defined.

Section ExtraOnSim.
Import StreamingVertexBufferInterface.
#[local] Existing Instances Sim.buffer Sim.factory Sim.layout.

Lemma reserveVertexSpace_effect_witness :
  let self := arena 1024 320 208 in
  exists v,
    VertexBufferInterface.getSpaceRequired (Sim.bytes 1) (Sim.binding 1 0) 100 0 = Ok v /\
    is_uint (v + mReservedSpace self) /\
    snd (reserveVertexSpace (Sim.bytes 1) (Sim.binding 1 0) 100 0 self)
    = set_mReservedSpace (v + mReservedSpace self) self.
Proof.
  exact (reserveVertexSpace_effect (Sim.bytes 1) (Sim.binding 1 0) 100 0
           (arena 1024 320 208)
           (snd (reserveVertexSpace (Sim.bytes 1) (Sim.binding 1 0) 100 0
                   (arena 1024 320 208)))
           (Ok tt) eq_refl).
Defined.

Lemma reserveSpace_failure_keeps_cursor_witness :
  let self' := snd (reserveSpace 4000 (arena_on 2000 1024 320 16)) in
  mWritePosition self' = 320 /\ mReservedSpace self' = 16.
Proof.
  apply (reserveSpace_failure_keeps_cursor 4000 (arena_on 2000 1024 320 16)
           (snd (reserveSpace 4000 (arena_on 2000 1024 320 16)))
           (OutOfMemory "Failed to allocate internal vertex buffer.")).
  vm_compute. reflexivity.
Defined.

Lemma reserveSpace_makes_room_witness :
  let self := arena 1024 320 0 in
  let self' := snd (reserveSpace 800 self) in
  mWritePosition self' + 800 <= getBufferSize self' /\
  getBufferSize self <= getBufferSize self' /\
  (mWritePosition self' = mWritePosition self \/ mWritePosition self' = 0).
Proof.
  apply (@reserveSpace_makes_room Sim.Buffer Sim.buffer Sim_buffer_laws 800
           (arena 1024 320 0) (snd (reserveSpace 800 (arena 1024 320 0)))).
  - unfold is_uint, UINT_MAX. lia.
  - vm_compute. discriminate.
  - vm_compute. discriminate.
  - vm_compute. reflexivity.
Defined.

Lemma storeDynamicAttribute_success_witness :
  let self := arena 1024 320 800 in
  let self' := snd (storeDynamicAttribute (Sim.store 100) self) in
  (0 = mWritePosition self \/ 0 = 0) /\
  mWritePosition self' = 0 + alignedSize (Sim.store 100) /\
  mWritePosition self' <= UINT_MAX /\
  mReservedSpace self' = 0.
Proof.
  apply (storeDynamicAttribute_success (Sim.store 100) (arena 1024 320 800)
           (snd (storeDynamicAttribute (Sim.store 100) (arena 1024 320 800))) 0).
  vm_compute. reflexivity.
Defined.

Lemma storeDynamicAttribute_failure_witness :
  let self := arena 1024 16 32 in
  let self' := snd (storeDynamicAttribute (Sim.store 4294967295) self) in
  (mWritePosition self' = mWritePosition self \/ mWritePosition self' = 0) /\
  (mReservedSpace self' = mReservedSpace self \/ mReservedSpace self' = 0).
Proof.
  apply (storeDynamicAttribute_failure (Sim.store 4294967295) (arena 1024 16 32)
           (snd (storeDynamicAttribute (Sim.store 4294967295) (arena 1024 16 32)))
           getSpaceRequired_overflow).
  vm_compute. reflexivity.
Defined.

(** 2000 bytes stored behind the cursor of a buffer of 1024. *)
Lemma storeDynamicAttribute_unreserved_witness :
  let self := arena 1024 320 0 in
  let self' := snd (storeDynamicAttribute (Sim.store 2000) self) in
  320 = mWritePosition self /\
  vbStoreVertexAttributes (Sim.store 2000) (mWritePosition self)
    (VertexBufferInterface.mVertexBuffer (base self))
  = (Ok tt, VertexBufferInterface.mVertexBuffer (base self')).
Proof.
  apply (@storeDynamicAttribute_unreserved Sim.Buffer Sim.buffer Sim.factory
           Sim_buffer_laws (Sim.store 2000) (arena 1024 320 0)
           (snd (storeDynamicAttribute (Sim.store 2000) (arena 1024 320 0))) 320).
  - reflexivity.
  - vm_compute. discriminate.
  - vm_compute. reflexivity.
Defined.

(** A draw of 1120 bytes on a buffer of 1024: the buffer grows to 1536. *)
Lemma reserveAndStoreAll_within_capacity_witness :
  let calls := [Sim.store 100; Sim.store 200; Sim.store 800] in
  let self' := snd (reserveAndStoreAll calls (arena 1024 320 0)) in
  within_capacity [0; 112; 320] (map alignedSize calls) (getBufferSize self') /\
  pairwise_disjoint [0; 112; 320] (map alignedSize calls) /\
  (calls <> [] ->
   mWritePosition self' <= getBufferSize self' /\ mReservedSpace self' = 0).
Proof.
  apply (@reserveAndStoreAll_within_capacity Sim.Buffer Sim.buffer Sim.factory
           Sim_buffer_laws [Sim.store 100; Sim.store 200; Sim.store 800]
           (arena 1024 320 0)
           (snd (reserveAndStoreAll [Sim.store 100; Sim.store 200; Sim.store 800]
                   (arena 1024 320 0)))
           [0; 112; 320]).
  - reflexivity.
  - vm_compute. discriminate.
  - vm_compute. discriminate.
  - vm_compute. reflexivity.
Defined.

Lemma offsets_are_aligned_witness :
  let calls := [Initialize 1024; Reserve (Sim.store 100); Store (Sim.store 100);
                Store (Sim.store 4294967295); Discard; Reserve (Sim.store 1000);
                Store (Sim.store 1000); SetBufferSize 4096; Store (Sim.store 7)] in
  let self := construct (Sim.fresh UINT_MAX) in
  Forall (fun offset => offset mod 16 = 0) (fst (runCalls calls self)) /\
  mWritePosition (snd (runCalls calls self)) mod 16 = 0.
Proof.
  apply (offsets_are_aligned
           [Initialize 1024; Reserve (Sim.store 100); Store (Sim.store 100);
            Store (Sim.store 4294967295); Discard; Reserve (Sim.store 1000);
            Store (Sim.store 1000); SetBufferSize 4096; Store (Sim.store 7)]
           (construct (Sim.fresh UINT_MAX))).
  reflexivity.
Defined.

Lemma releases_balance_addRefs_witness :
  let self := fst (VertexBuffer.construct 1) in
  releases 3 (addRefs 3 self) = Some self /\
  (VertexBuffer.mRefCount self = 1 -> releases 4 (addRefs 3 self) = None).
Proof.
  apply (releases_balance_addRefs 3 (fst (VertexBuffer.construct 1))).
  - vm_compute. discriminate.
  - vm_compute. discriminate.
Defined.

Lemma reserveVertexSpace_overflows_witness :
  let self := arena 1024 0 4294967280 in
  exists requiredSpace,
    getVertexSpaceRequired (Sim.bytes 1) (Sim.binding 1 0) 100 0 = Ok requiredSpace /\
    reserveVertexSpace (Sim.bytes 1) (Sim.binding 1 0) 100 0 self
    = (Err (reserveVertexSpace_overflow requiredSpace), self).
Proof.
  apply (reserveVertexSpace_overflows (Sim.bytes 1) (Sim.binding 1 0) 100 0
           (arena 1024 0 4294967280) 112).
  - vm_compute. reflexivity.
  - vm_compute. reflexivity.
Defined.

Lemma reserveSpace_idempotent_witness :
  let self' := snd (reserveSpace 800 (arena 1024 320 0)) in
  reserveSpace 800 self' = (Ok tt, self').
Proof.
  apply (@reserveSpace_idempotent Sim.Buffer Sim.buffer Sim_buffer_laws 800
           (arena 1024 320 0) (snd (reserveSpace 800 (arena 1024 320 0)))).
  - unfold is_uint, UINT_MAX. lia.
  - vm_compute. discriminate.
  - vm_compute. discriminate.
  - vm_compute. reflexivity.
Defined.

(** A draw of 912 bytes on a buffer of 1024 with the cursor at 320. *)
Lemma reserveAndStoreAll_keeps_capacity_witness :
  getBufferSize (snd (reserveAndStoreAll [Sim.store 100; Sim.store 800]
                        (arena 1024 320 0)))
  = getBufferSize (arena 1024 320 0).
Proof.
  apply (@reserveAndStoreAll_keeps_capacity Sim.Buffer Sim.buffer Sim.factory
           Sim_buffer_laws [Sim.store 100; Sim.store 800] (arena 1024 320 0)
           (snd (reserveAndStoreAll [Sim.store 100; Sim.store 800] (arena 1024 320 0)))
           [0; 112]).
  - reflexivity.
  - vm_compute. discriminate.
  - vm_compute. reflexivity.
Defined.

End ExtraOnSim.

Section ExtraStaticOnSim.
Import StaticVertexBufferInterface.
#[local] Existing Instances Sim.buffer Sim.factory Sim.layout.

Lemma fresh_interface_matches_nothing_witness :
  matchesAttribute (construct (Sim.fresh UINT_MAX)) (Sim.bytes 3) (Sim.binding 12 0)
  = false.
Proof.
  apply (fresh_interface_matches_nothing (Sim.fresh UINT_MAX)
           (Sim.bytes 3) (Sim.binding 12 0)).
  left. vm_compute. discriminate.
Defined.

Lemma matchesAttribute_after_setAttribute_witness :
  let self' := snd (setAttribute (Sim.bytes 3) (Sim.binding 12 4)
                      (construct (Sim.fresh UINT_MAX))) in
  matchesAttribute self' (Sim.bytes 3) (Sim.binding 12 40) = true <->
  same_format (Sim.bytes 3) (Sim.bytes 3) /\
  strideOf (Sim.bytes 3) (Sim.binding 12 40) = strideOf (Sim.bytes 3) (Sim.binding 12 4) /\
  exists k,
    offsetOf (Sim.bytes 3) (Sim.binding 12 40)
    = offsetOf (Sim.bytes 3) (Sim.binding 12 4)
      + k * strideOf (Sim.bytes 3) (Sim.binding 12 4).
Proof.
  apply (matchesAttribute_after_setAttribute
           (Sim.bytes 3) (Sim.binding 12 4) (Sim.bytes 3) (Sim.binding 12 40)
           (construct (Sim.fresh UINT_MAX))).
  - vm_compute. split; [reflexivity | discriminate].
  - reflexivity.
Defined.

Lemma storeStaticAttribute_makes_room_witness :
  let self' := snd (storeStaticAttribute (Sim.bytes 3) (Sim.binding 12 0) 0 10 0 []
                      (construct (Sim.fresh UINT_MAX))) in
  exists spaceRequired,
    VertexBufferInterface.getSpaceRequired
      (Sim.bytes 3) (Sim.binding 12 0) (to_size_t 10) 0 = Ok spaceRequired /\
    spaceRequired <= VertexBufferInterface.getBufferSize (base self') /\
    mSignature self' = AttributeSignature.set (Sim.bytes 3) (Sim.binding 12 0).
Proof.
  apply (@storeStaticAttribute_makes_room Sim.Buffer Sim.buffer Sim.factory
           Sim.layout Sim_buffer_laws Sim_hint_laws
           (Sim.bytes 3) (Sim.binding 12 0) 0 10 0 []
           (construct (Sim.fresh UINT_MAX))).
  vm_compute. reflexivity.
Defined.

End ExtraStaticOnSim.
